(** * The daily-deeds tracker of TermX (src/Deeds/daily_routine.py)

    A shallow embedding of the CSV-backed, date-keyed log of
    [daily_routine.py]: [initialize_csv], [check_or_initialize_date],
    [update_activity] and the lookup part of [display_progress], over a file
    system holding one optional text file, and of the parts of Python's
    [csv] module (excel dialect, QUOTE_MINIMAL, file opened with
    [newline='']) that the script relies on. *)

From Stdlib Require Import String Ascii List Bool Arith Lia.
From Stdlib Require Import Numbers.DecimalString.
Import ListNotations.
Open Scope list_scope.

(** ** Python's [csv] module, excel dialect *)
Module Csv.

Definition COMMA : ascii := ","%char.
Definition DQ : ascii := "034"%char.
Definition CR : ascii := "013"%char.
Definition LF : ascii := "010"%char.

Definition CRLF : string := String CR (String LF EmptyString).

(** [QUOTE_MINIMAL]: the writer quotes a field that holds the delimiter, the
    quote character or a character of the line terminator. *)
Fixpoint needs_quote (s : string) : bool :=
  match s with
  | EmptyString => false
  | String c s' =>
      (Ascii.eqb c COMMA || Ascii.eqb c DQ || Ascii.eqb c CR || Ascii.eqb c LF
       || needs_quote s')%bool
  end.

(** [doublequote=True]: a quote inside a quoted field is written twice. *)
Fixpoint double_quotes (s : string) : string :=
  match s with
  | EmptyString => EmptyString
  | String c s' =>
      if Ascii.eqb c DQ then String DQ (String DQ (double_quotes s'))
      else String c (double_quotes s')
  end.

Definition quote_field (s : string) : string :=
  if needs_quote s
  then String DQ (String.append (double_quotes s) (String DQ EmptyString))
  else s.

Fixpoint join_fields (r : list string) : string :=
  match r with
  | [] => EmptyString
  | [f] => quote_field f
  | f :: fs => String.append (quote_field f) (String COMMA (join_fields fs))
  end.

(** [writer.writerow]: the fields joined by the delimiter, then the line
    terminator ["\r\n"]; a record made of one empty field is written as a
    quoted empty string, so that it is not read back as a blank line. *)
Definition writerow (r : list string) : string :=
  match r with
  | [EmptyString] => String.append (String DQ (String DQ EmptyString)) CRLF
  | _ => String.append (join_fields r) CRLF
  end.

(** [writer.writerows]. *)
Fixpoint writerows (rows : list (list string)) : string :=
  match rows with
  | [] => EmptyString
  | r :: rs => String.append (writerow r) (writerows rs)
  end.

(** The states of the reader's parser ([_csv.c], [parse_process_char]). *)
Inductive pstate :=
| StartRecord | StartField | InField | InQuotedField | QuoteInQuotedField
| EatCrnl.

(** The field being read is kept reversed; [field_of] is
    [parse_save_field]. *)
Definition field_of (fld : list ascii) : string :=
  string_of_list_ascii (rev fld).

Definition is_eol (c : ascii) : bool := (Ascii.eqb c CR || Ascii.eqb c LF)%bool.

(** With [newline=''] the file is iterated by lines ending in ["\r\n"],
    ["\r"] or ["\n"]; a line end outside quotes closes the record. After a
    ["\r"] the reader waits in [EatCrnl] for the ["\n"] of the same line
    end. *)
Definition after_eol (c : ascii) : pstate :=
  if Ascii.eqb c CR then EatCrnl else StartRecord.

Definition Step : Type := (pstate * list ascii * list string * option (list string))%type.

Definition step_start_field (fld : list ascii) (row : list string) (c : ascii) : Step :=
  if is_eol c then (after_eol c, [], [], Some (rev (field_of fld :: row)))
  else if Ascii.eqb c DQ then (InQuotedField, fld, row, None)
  else if Ascii.eqb c COMMA then (StartField, [], field_of fld :: row, None)
  else (InField, c :: fld, row, None).

(** In [StartRecord] a line end is a blank line, read as the empty record;
    any other character is handled as in [StartField]. *)
Definition step_start_record (fld : list ascii) (row : list string) (c : ascii) : Step :=
  if is_eol c then (after_eol c, [], [], Some [])
  else step_start_field fld row c.

Definition step (st : pstate) (fld : list ascii) (row : list string) (c : ascii) : Step :=
  match st with
  | StartRecord => step_start_record fld row c
  | StartField => step_start_field fld row c
  | InField =>
      if is_eol c then (after_eol c, [], [], Some (rev (field_of fld :: row)))
      else if Ascii.eqb c COMMA then (StartField, [], field_of fld :: row, None)
      else (InField, c :: fld, row, None)
  | InQuotedField =>
      if Ascii.eqb c DQ then (QuoteInQuotedField, fld, row, None)
      else (InQuotedField, c :: fld, row, None)
  | QuoteInQuotedField =>
      if Ascii.eqb c DQ then (InQuotedField, DQ :: fld, row, None)
      else if Ascii.eqb c COMMA then (StartField, [], field_of fld :: row, None)
      else if is_eol c then (after_eol c, [], [], Some (rev (field_of fld :: row)))
      else (InField, c :: fld, row, None)
  | EatCrnl =>
      if Ascii.eqb c LF then (StartRecord, [], [], None)
      else step_start_record fld row c
  end.

(** End of input: an unfinished record is completed (non-strict dialect). *)
Definition finish (st : pstate) (fld : list ascii) (row : list string) : list (list string) :=
  match st with
  | StartRecord | EatCrnl => []
  | _ => [rev (field_of fld :: row)]
  end.

Fixpoint parse (st : pstate) (fld : list ascii) (row : list string) (s : string)
  : list (list string) :=
  match s with
  | EmptyString => finish st fld row
  | String c s' =>
      let '(st', fld', row', out) := step st fld row c in
      match out with
      | Some r => r :: parse st' fld' row' s'
      | None => parse st' fld' row' s'
      end
  end.

(** [list(csv.reader(file))]. The reader's per-field size limit
    ([csv.field_size_limit()], 131072 characters) is a resource bound of the
    library and is not part of this model. *)
Definition reader (text : string) : list (list string) :=
  parse StartRecord [] [] text.

End Csv.

Open Scope string_scope.

(** ** The tracker: [src/Deeds/daily_routine.py] *)

(** [activities]: the schema, in dictionary order; [None] marks a
    free-text activity. *)
Definition activities : list (string * option nat) :=
  [("Tahajjud", Some 2); ("Isha_3_Witr", Some 3);
   ("Surah_Sajdah", Some 1); ("Surah_Mulk", Some 1);
   ("Fajr_2_Sunnath", Some 2); ("Fajr_2_Faraz", Some 2);
   ("Surah_Yaseen", Some 1);
   ("Ishraq", Some 2); ("Chasht", Some 2);
   ("Zohar_4_Sunnath", Some 4); ("Zohar_4_Faraz", Some 4);
   ("Zohar_2_Sunnath", Some 2); ("Zohar_2_Nafil", Some 2);
   ("Asar_4_Sunnath", Some 4); ("Asar_4_Faraz", Some 4);
   ("Maghrib_3_Faraz", Some 3); ("Maghrib_2_Sunnath", Some 2);
   ("Maghrib_2_Nafil", Some 2);
   ("Surah_Rahman", Some 1); ("Surah_Waqiah", Some 1);
   ("Isha_4_Faraz", Some 4); ("Isha_2_Sunnath", Some 2);
   ("Memorization", None);
   ("Revision", None)].

(** [list(activities.keys())] *)
Definition activity_keys : list string := map fst activities.

(** A value held in a row in memory: a string read from the file, an [int]
    (the zeros of a new row, a default count) or [None] (the default of a
    free-text activity). *)
Inductive cell :=
| CStr (s : string)
| CInt (n : nat)
| CNone.

(** How [csv.writer] renders a value: [str(n)] for an int, the empty string
    for [None]. *)
Definition render (c : cell) : string :=
  match c with
  | CStr s => s
  | CInt n => NilEmpty.string_of_uint (Nat.to_uint n)
  | CNone => EmptyString
  end.

(** [row[0] == date]: only a string equals the date string. *)
Definition cell_eq_date (c : cell) (date : string) : bool :=
  match c with
  | CStr s => String.eqb s date
  | _ => false
  end.

(** The exceptions the functions can raise. *)
Inductive exn :=
| IndexError                    (* [row[i]] out of range *)
| ValueError (what : string)    (* [list.index]: [what] is not in list *)
| StopIteration.                (* [next(reader)] on an empty file *)

(** The file system: the log file is absent or holds a text. *)
Definition fstate := option string.

(** A computation over the file that returns a value or raises; either way
    the file is left in some state. *)
Inductive result (A : Type) :=
| Ok (a : A) (fs : fstate)
| Err (e : exn) (fs : fstate).
Arguments Ok {A} a fs.
Arguments Err {A} e fs.

(** [list.index]: position of the first occurrence. *)
Fixpoint index_of (x : string) (l : list string) : option nat :=
  match l with
  | [] => None
  | y :: l' =>
      if String.eqb y x then Some 0
      else option_map S (index_of x l')
  end.

(** [row[i] = v]: list assignment, [IndexError] out of range. *)
Fixpoint list_set {A} (l : list A) (i : nat) (v : A) : option (list A) :=
  match l, i with
  | [], _ => None
  | _ :: l', 0 => Some (v :: l')
  | x :: l', S i' => option_map (cons x) (list_set l' i' v)
  end.

(** [csv.writer(file).writerows(rows)] for rows of in-memory values. *)
Definition write_rows (rows : list (list cell)) : string :=
  Csv.writerows (map (map render) rows).

(** [list(csv.reader(file))]: every value read is a string. *)
Definition read_rows (text : string) : list (list cell) :=
  map (map CStr) (Csv.reader text).

(** Line 40: the header row. *)
Definition header_row : list string := "Date" :: activity_keys.

(** [initialize_csv] (lines 36-40). *)
Definition initialize_csv (f : fstate) : fstate :=
  match f with
  | None => Some (Csv.writerows [header_row])
  | Some text => Some text
  end.

(** The loop of lines 55-57: [for row in rows: if row[0] == date: return rows].
    [Some true]: found, [Some false]: the loop ran to its end, [None]:
    [row[0]] raised [IndexError] on an empty row. *)
Fixpoint date_in_rows (rows : list (list cell)) (date : string) : option bool :=
  match rows with
  | [] => Some false
  | [] :: _ => None
  | (c :: _) :: rs => if cell_eq_date c date then Some true else date_in_rows rs date
  end.

(** Line 60: [[date] + [0] * len(activities)]. *)
Definition new_row (date : string) : list cell :=
  CStr date :: repeat (CInt 0) (length activities).

(** [check_or_initialize_date] (lines 44-68). *)
Definition check_or_initialize_date (f : fstate) (date : string)
  : result (list (list cell)) :=
  let append_and_write rows :=
    let rows' := (rows ++ [new_row date])%list in
    Ok rows' (Some (write_rows rows')) in
  match f with
  | None => append_and_write []
  | Some text =>
      let rows := read_rows text in
      match date_in_rows rows date with
      | None => Err IndexError f
      | Some true => Ok rows f
      | Some false => append_and_write rows
      end
  end.

(** [activities[activity]]; the lookup only runs after [index] found the
    key, so the missing-key branch is never taken. *)
Definition default_value (activity : string) : cell :=
  match find (fun kv => String.eqb (fst kv) activity) activities with
  | Some (_, Some n) => CInt n
  | _ => CNone
  end.

(** Lines 81-84: the default of the activity when no value is given,
    otherwise the given value. *)
Definition written_value (activity : string) (value : option string) : cell :=
  match value with
  | None => default_value activity
  | Some s => CStr s
  end.

(** The loop of lines 78-85, writing into a file truncated by
    [open(file_name, 'w')]: [acc] is what has been written so far, and is
    what the file holds if an exception escapes the [with] block. *)
Fixpoint update_loop (date activity : string) (value : option string)
    (rows : list (list cell)) (acc : string) : result unit :=
  match rows with
  | [] => Ok tt (Some acc)
  | row :: rs =>
      match row with
      | [] => Err IndexError (Some acc)
      | c :: _ =>
          if cell_eq_date c date then
            match index_of activity activity_keys with
            | None => Err (ValueError activity) (Some acc)
            | Some i =>
                match list_set row (S i) (written_value activity value) with
                | None => Err IndexError (Some acc)
                | Some row' =>
                    update_loop date activity value rs
                      (String.append acc (Csv.writerow (map render row')))
                end
            end
          else
            update_loop date activity value rs
              (String.append acc (Csv.writerow (map render row)))
      end
  end.

(** [update_activity] (lines 72-85). *)
Definition update_activity (f : fstate) (date activity : string)
    (value : option string) : result unit :=
  match check_or_initialize_date f date with
  | Err e f' => Err e f'
  | Ok rows _ => update_loop date activity value rows EmptyString
  end.

(** The outcomes of [display_progress] once the date is known (lines
    137-182): the progress table printed from a row, "No progress recorded
    for <date>." (the [else] of the [for] loop), "No progress recorded yet."
    ([FileNotFoundError]), or an exception that escapes. *)
Inductive progress :=
| Progress (row : list string)
| NoProgressForDate
| NoProgressYet
| Raised (e : exn).

(** The columns the table reads, [row[headers.index(name)]], in the order
    the [print] calls of lines 148-176 evaluate them. *)
Definition display_columns : list string :=
  ["Fajr_2_Sunnath"; "Fajr_2_Faraz";
   "Zohar_4_Sunnath"; "Zohar_4_Faraz"; "Zohar_2_Sunnath"; "Zohar_2_Nafil";
   "Asar_4_Sunnath"; "Asar_4_Faraz";
   "Maghrib_3_Faraz"; "Maghrib_2_Sunnath"; "Maghrib_2_Nafil";
   "Isha_4_Faraz"; "Isha_2_Sunnath"; "Isha_3_Witr";
   "Tahajjud"; "Ishraq"; "Chasht";
   "Memorization"; "Revision";
   "Surah_Rahman"; "Surah_Waqiah";
   "Surah_Yaseen";
   "Surah_Sajdah"; "Surah_Mulk"].

(** Evaluating [row[headers.index(name)]] for every displayed column: the
    first failing lookup raises. *)
Fixpoint print_table (headers row : list string) (names : list string) : option exn :=
  match names with
  | [] => None
  | n :: ns =>
      match index_of n headers with
      | None => Some (ValueError n)
      | Some i =>
          match nth_error row i with
          | None => Some IndexError
          | Some _ => print_table headers row ns
          end
      end
  end.

(** [for row in reader: if row[0] == today: ...; break / else: ...]. *)
Fixpoint progress_loop (headers : list string) (rows : list (list string))
    (today : string) : progress :=
  match rows with
  | [] => NoProgressForDate
  | [] :: _ => Raised IndexError
  | (d :: rest) :: rs =>
      if String.eqb d today then
        match print_table headers (d :: rest) display_columns with
        | Some e => Raised e
        | None => Progress (d :: rest)
        end
      else progress_loop headers rs today
  end.

(** [display_progress] after the date [today] has been chosen (the current
    date, or a typed date that passed the format check of lines 131-134):
    the [try] block of lines 137-182. It only reads the file. *)
Definition display_progress (f : fstate) (today : string) : progress :=
  match f with
  | None => NoProgressYet
  | Some text =>
      match Csv.reader text with
      | [] => Raised StopIteration
      | headers :: rows => progress_loop headers rows today
      end
  end.

(** A run of the script's two writing operations on the log file. *)
Inductive op :=
| EnsureRow (date : string)
| UpdateField (date activity : string) (value : option string).

Definition run_op (o : op) (f : fstate) : option fstate :=
  match o with
  | EnsureRow d =>
      match check_or_initialize_date f d with
      | Ok _ f' => Some f'
      | Err _ _ => None
      end
  | UpdateField d a v =>
      match update_activity f d a v with
      | Ok _ f' => Some f'
      | Err _ _ => None
      end
  end.

(** [None] when an operation raises. *)
Fixpoint run_ops (ops : list op) (f : fstate) : option fstate :=
  match ops with
  | [] => Some f
  | o :: os =>
      match run_op o f with
      | Some f' => run_ops os f'
      | None => None
      end
  end.

Definition op_valid (o : op) : Prop :=
  match o with
  | EnsureRow _ => True
  | UpdateField _ a _ => In a activity_keys
  end.

(** The first field of each row. *)
Definition row_dates (rows : list (list string)) : list string :=
  flat_map (fun r => match r with [] => [] | d :: _ => [d] end) rows.

(** The rows written before the first row of [date]. *)
Fixpoint rows_before (date : string) (rows : list (list string)) : list (list string) :=
  match rows with
  | [] => []
  | r :: rs =>
      match r with
      | d :: _ => if String.eqb d date then [] else r :: rows_before date rs
      | [] => r :: rows_before date rs
      end
  end.

(** The row set after writing [v] into column [j] of every row of [date]:
    the effect the spec describes for [updateField]. *)
Definition set_field (date : string) (j : nat) (v : string) (r : list string) : list string :=
  match r with
  | d :: _ =>
      if String.eqb d date
      then match list_set r j v with Some r' => r' | None => r end
      else r
  | [] => r
  end.

(** The text of [new_row date] once written: the date and one ["0"] per
    activity. *)
Definition zero_row (date : string) : list string :=
  date :: repeat "0" (length activities).

(** No row of the file is empty: [row[0]] is defined on every row. *)
Definition rows_nonempty (rows : list (list string)) : Prop :=
  Forall (fun r => r <> []) rows.

(** Every row has one field per activity plus the date. *)
Definition rows_well_formed (rows : list (list string)) : Prop :=
  Forall (fun r => length r = S (length activities)) rows.

(** The file is absent, or none of its rows is empty. *)
Definition file_rows_nonempty (f : fstate) : Prop :=
  match f with
  | None => True
  | Some text => rows_nonempty (Csv.reader text)
  end.

(** The rows of the file as [csv.reader] reads them; none when it is
    absent. *)
Definition file_rows (f : fstate) : list (list string) :=
  match f with
  | None => []
  | Some text => Csv.reader text
  end.

(** ** Python's [str] methods used by the interactive layer

    A character is a code point of U+0000..U+00FF (Latin-1). *)

(** [str.isdecimal] on one character: the digits [int()] accepts. *)
Definition is_decimal (c : ascii) : bool :=
  Nat.leb 48 (nat_of_ascii c) && Nat.leb (nat_of_ascii c) 57.

(** [str.isdigit] on one character: the decimal digits and the superscript
    digits U+00B2, U+00B3 and U+00B9. *)
Definition is_digit (c : ascii) : bool :=
  is_decimal c || Nat.eqb (nat_of_ascii c) 178 || Nat.eqb (nat_of_ascii c) 179
  || Nat.eqb (nat_of_ascii c) 185.

(** [s.isdigit()]: false on the empty string. *)
Definition py_isdigit (s : string) : bool :=
  match s with
  | EmptyString => false
  | _ => forallb is_digit (list_ascii_of_string s)
  end.

Fixpoint py_int_acc (s : string) (acc : nat) : option nat :=
  match s with
  | EmptyString => Some acc
  | String c s' =>
      if is_decimal c then py_int_acc s' (acc * 10 + (nat_of_ascii c - 48)) else None
  end.

(** [int(s)] on a string that passed [isdigit()]: its decimal value (leading
    zeros allowed), or [None] where [int] raises [ValueError] on a digit that
    is not decimal. *)
Definition py_int (s : string) : option nat := py_int_acc s 0.

(** [str.isspace] on one character. *)
Definition is_space (c : ascii) : bool :=
  let n := nat_of_ascii c in
  ((Nat.leb 9 n) && (Nat.leb n 13)) || ((Nat.leb 28 n) && (Nat.leb n 31)) || Nat.eqb n 32
  || Nat.eqb n 133 || Nat.eqb n 160.

Fixpoint lstrip_chars (l : list ascii) : list ascii :=
  match l with
  | [] => []
  | c :: l' => if is_space c then lstrip_chars l' else l
  end.

(** [s.strip()]. *)
Definition strip (s : string) : string :=
  string_of_list_ascii
    (rev (lstrip_chars (rev (lstrip_chars (list_ascii_of_string s))))).

(** [s[i] != c] where [s[i]] exists; the checks below only index a string of
    length 10 at positions 2 and 5. *)
Definition char_ne (s : string) (i : nat) (c : ascii) : bool :=
  match String.get i s with
  | Some c' => negb (Ascii.eqb c' c)
  | None => true
  end.

(** [s[a:b]]. *)
Definition slice (s : string) (a b : nat) : string := substring a (b - a) s.

(** The format check of [display_progress] (line 132), on the stripped
    input: [true] when it prints "Invalid date format". *)
Definition display_date_invalid (today : string) : bool :=
  negb (Nat.eqb (String.length today) 10) || char_ne today 2 "-" || char_ne today 5 "-"
  || negb (py_isdigit (slice today 0 2)) || negb (py_isdigit (slice today 3 5))
  || negb (py_isdigit (slice today 6 10)).

(** The two format checks of [main], option 3 (lines 208 and 211). *)
Definition main_date_bad_shape (date : string) : bool :=
  negb (Nat.eqb (String.length date) 10) || char_ne date 2 "-" || char_ne date 5 "-".

Definition main_date_bad_digits (date : string) : bool :=
  negb (py_isdigit (slice date 0 2)) || negb (py_isdigit (slice date 3 5))
  || negb (py_isdigit (slice date 6 10)).

(** ** The interactive layer: [get_input], [input_progress],
    [display_progress] and [main] *)

(** How a run stops abnormally: [exit(1)] in [get_input] when the input
    ends, an exception of the log functions that escapes, [int(choice)]
    raising [ValueError], or [input()] at "Press Enter to continue..."
    raising [EOFError] (not caught there). *)
Inductive halt :=
| SysExit (code : nat)
| Uncaught (e : exn)
| IntError (s : string)
| EOFErr.

(** What the user sees, one event per message; the menus, banners and
    prompts are not recorded. [Shown p] is what [display_progress] prints
    once the date is known (the table of [p], or one of its two messages). *)
Inductive event :=
| InvalidChoice                        (* "Invalid choice, please try again." *)
| InvalidDate                          (* "Invalid date format. Please use dd-mm-yyyy." *)
| Logged (activity date : string)      (* "<----- Logged ... for <date> ----->" *)
| Shown (p : progress)
| Exiting.                             (* "Exiting..." *)

(** The log file, the lines still to be typed, and what was printed. *)
Record world := mkWorld { file : fstate; input : list string; output : list event }.

Inductive outcome (A : Type) :=
| Done (a : A)
| Halted (h : halt).
Arguments Done {A} a.
Arguments Halted {A} h.

Definition io (A : Type) : Type := world -> outcome A * world.

Definition ret {A} (a : A) : io A := fun w => (Done a, w).

Definition bind {A B} (m : io A) (k : A -> io B) : io B :=
  fun w =>
    match m w with
    | (Done a, w') => k a w'
    | (Halted h, w') => (Halted h, w')
    end.

Notation "x <- m ;; k" := (bind m (fun x => k))
  (at level 61, m at next level, right associativity).

Definition stop {A} (h : halt) : io A := fun w => (Halted h, w).

(** [get_input] (lines 23-32): one line, or [exit(1)] on [EOFError]. The
    input is the list of lines typed; a [KeyboardInterrupt] (lines 27-29,
    which also print a message and call [exit(1)]) is not among them, so
    this model covers sessions without Ctrl-C. *)
Definition get_input : io string :=
  fun w =>
    match input w with
    | [] => (Halted (SysExit 1), w)
    | l :: ls => (Done l, mkWorld (file w) ls (output w))
    end.

(** [input("\nPress Enter to continue...")] (line 224): the line is
    dropped; at the end of the input [EOFError] escapes. *)
Definition press_enter : io unit :=
  fun w =>
    match input w with
    | [] => (Halted EOFErr, w)
    | _ :: ls => (Done tt, mkWorld (file w) ls (output w))
    end.

Definition emit (e : event) : io unit :=
  fun w => (Done tt, mkWorld (file w) (input w) (output w ++ [e])).

(** A call of [update_activity] on the log file. *)
Definition run_update (date activity : string) (value : option string) : io unit :=
  fun w =>
    match update_activity (file w) date activity value with
    | Ok _ f' => (Done tt, mkWorld f' (input w) (output w))
    | Err e f' => (Halted (Uncaught e), mkWorld f' (input w) (output w))
    end.

(** The [try] block of [display_progress] for a known date. *)
Definition show_progress (today : string) : io unit :=
  fun w =>
    match display_progress (file w) today with
    | Raised e => (Halted (Uncaught e), w)
    | p => (Done tt, mkWorld (file w) (input w) (output w ++ [Shown p]))
    end.

(** [activity in ["Memorization", "Revision"]] (line 119). *)
Definition free_text (activity : string) : bool :=
  existsb (String.eqb activity) ["Memorization"; "Revision"].

(** Lines 119-125, once the activity is chosen. *)
Definition log_activity (date activity : string) : io unit :=
  _ <- (if free_text activity
        then value <- get_input ;; run_update date activity (Some value)
        else run_update date activity None) ;;
  emit (Logged activity date).

(** [input_progress] (lines 105-125); [today] is
    [datetime.now().strftime("%d-%m-%Y")], and [if not date: date = today]
    replaces a missing or empty date. *)
Definition input_date (today : string) (date : option string) : string :=
  match date with
  | Some d => if String.eqb d EmptyString then today else d
  | None => today
  end.

Definition input_progress (today : string) (date : option string) : io unit :=
  let date := input_date today date in
  choice <- get_input ;;
  if negb (py_isdigit choice) then emit InvalidChoice else
  match py_int choice with
  | None => stop (IntError choice)
  | Some n =>
      if negb (Nat.leb 1 n && Nat.ltb n (S (length activities))) then emit InvalidChoice
      else
        match nth_error activity_keys (n - 1) with
        | None => stop (Uncaught IndexError)
        | Some activity => log_activity date activity
        end
  end.

(** [display_progress(file_name, date)] (lines 129-182). *)
Definition display_command (today : string) (ask_date : bool) : io unit :=
  if ask_date then
    line <- get_input ;;
    let d := strip line in
    if display_date_invalid d then emit InvalidDate else show_progress d
  else show_progress today.

(** One round of the [while True] loop of [main] (lines 192-224): [true]
    to go on, [false] after [break]. *)
Definition main_round (today : string) : io bool :=
  choice <- get_input ;;
  if String.eqb choice "1" then
    _ <- input_progress today None ;; _ <- press_enter ;; ret true
  else if String.eqb choice "2" then
    _ <- display_command today false ;; _ <- press_enter ;; ret true
  else if String.eqb choice "3" then
    line <- get_input ;;
    let d0 := strip line in
    let date := if String.eqb d0 EmptyString then today else d0 in
    if main_date_bad_shape date then _ <- emit InvalidDate ;; ret true
    else if main_date_bad_digits date then _ <- emit InvalidDate ;; ret true
    else _ <- input_progress today (Some date) ;; _ <- press_enter ;; ret true
  else if String.eqb choice "4" then
    _ <- display_command today true ;; _ <- press_enter ;; ret true
  else if existsb (String.eqb choice) ["5"; "x"; "q"] then
    _ <- emit Exiting ;; ret false
  else _ <- emit InvalidChoice ;; ret true.

(** The loop; every round reads its choice line, so [fuel] one more than
    the number of lines left is never exhausted (see
    [InteractiveFacts.main_loop_fuel]). *)
Fixpoint main_loop (today : string) (fuel : nat) : io unit :=
  match fuel with
  | O => stop (SysExit 1)
  | S fuel' =>
      again <- main_round today ;;
      if again then main_loop today fuel' else ret tt
  end.

(** [main] (lines 186-224). *)
Definition main (today : string) : io unit :=
  fun w =>
    main_loop today (S (length (input w)))
      (mkWorld (initialize_csv (file w)) (input w) (output w)).

(** ** The schema of the earlier script, [src/Deeds/old_nz_script.py] *)

(** Its [activities] (lines 6-18): the same names and defaults, in another
    order. *)
Definition old_activities : list (string * option nat) :=
  [("Fajr_2_Sunnath", Some 2); ("Fajr_2_Faraz", Some 2);
   ("Zohar_4_Sunnath", Some 4); ("Zohar_4_Faraz", Some 4);
   ("Zohar_2_Sunnath", Some 2); ("Zohar_2_Nafil", Some 2);
   ("Asar_4_Sunnath", Some 4); ("Asar_4_Faraz", Some 4);
   ("Maghrib_3_Faraz", Some 3); ("Maghrib_2_Sunnath", Some 2);
   ("Maghrib_2_Nafil", Some 2);
   ("Isha_4_Faraz", Some 4); ("Isha_2_Sunnath", Some 2); ("Isha_3_Witr", Some 3);
   ("Tahajjud", Some 2); ("Ishraq", Some 2); ("Chasht", Some 2);
   ("Memorization", None);
   ("Revision", None);
   ("Surah_Rahman", Some 1); ("Surah_Waqiah", Some 1);
   ("Surah_Yaseen", Some 1);
   ("Surah_Sajdah", Some 1); ("Surah_Mulk", Some 1)].

Definition old_activity_keys : list string := map fst old_activities.

Definition old_header_row : list string := "Date" :: old_activity_keys.

(** Its [initialize_csv] (lines 35-39). *)
Definition old_initialize_csv (f : fstate) : fstate :=
  match f with
  | None => Some (Csv.writerows [old_header_row])
  | Some text => Some text
  end.

(** Sample files used by the witnesses: the file [initialize_csv] creates,
    and that file with one row for [sample_date]. *)
Definition sample_date : string := "01-01-2025".
Definition fresh_log : string := Csv.writerows [header_row].
Definition sample_log : string := Csv.writerows [header_row; zero_row sample_date].

(** * Facts about the CSV codec *)
Module CsvFacts.
Import Csv.
Local Open Scope list_scope.

Lemma sappend_assoc (a b c : string) :
  String.append (String.append a b) c = String.append a (String.append b c).
Proof. induction a as [|x a IH]; simpl; [reflexivity | now rewrite IH]. Qed.

Lemma parse_step_none st fld row c s st' fld' row' :
  step st fld row c = (st', fld', row', None) ->
  parse st fld row (String c s) = parse st' fld' row' s.
Proof. intros E; simpl; now rewrite E. Qed.

Lemma parse_step_some st fld row c s st' fld' row' r :
  step st fld row c = (st', fld', row', Some r) ->
  parse st fld row (String c s) = r :: parse st' fld' row' s.
Proof. intros E; simpl; now rewrite E. Qed.

Lemma field_of_rev (f : string) :
  field_of ((rev (list_ascii_of_string f) ++ [])%list) = f.
Proof.
  unfold field_of. rewrite app_nil_r, rev_involutive.
  apply string_of_list_ascii_of_string.
Qed.

Lemma needs_quote_cons c s :
  needs_quote (String c s) = false ->
  Ascii.eqb c COMMA = false /\ Ascii.eqb c DQ = false /\ is_eol c = false
  /\ needs_quote s = false.
Proof.
  simpl. unfold is_eol. intros H.
  repeat rewrite orb_false_iff in H. intuition.
  now rewrite H3, H2.
Qed.

Lemma parse_double_quotes f fld row t :
  parse InQuotedField fld row (String.append (double_quotes f) t)
  = parse InQuotedField (rev (list_ascii_of_string f) ++ fld) row t.
Proof.
  revert fld. induction f as [|c f IH]; intros fld; [reflexivity|].
  simpl double_quotes. destruct (Ascii.eqb c DQ) eqn:E.
  - apply Ascii.eqb_eq in E; subst c. simpl String.append.
    rewrite (parse_step_none _ _ _ _ _ QuoteInQuotedField fld row) by reflexivity.
    rewrite (parse_step_none _ _ _ _ _ InQuotedField (DQ :: fld) row) by reflexivity.
    rewrite IH. simpl. now rewrite <- app_assoc.
  - simpl String.append.
    rewrite (parse_step_none _ _ _ _ _ InQuotedField (c :: fld) row)
      by (simpl; now rewrite E).
    rewrite IH. simpl. now rewrite <- app_assoc.
Qed.

Lemma parse_plain f fld row t :
  needs_quote f = false ->
  parse InField fld row (String.append f t)
  = parse InField (rev (list_ascii_of_string f) ++ fld) row t.
Proof.
  revert fld. induction f as [|c f IH]; intros fld H; [reflexivity|].
  apply needs_quote_cons in H as (H1 & H2 & H3 & H4).
  simpl String.append.
  rewrite (parse_step_none _ _ _ _ _ InField (c :: fld) row)
    by (simpl; now rewrite H3, H1).
  rewrite IH by exact H4. simpl. now rewrite <- app_assoc.
Qed.

(** The states in which a delimiter or a line end saves the field read. *)
Definition closes (st : pstate) : Prop :=
  st = StartField \/ st = InField \/ st = QuoteInQuotedField.

Lemma closes_comma st fld row :
  closes st -> step st fld row COMMA = (StartField, [], field_of fld :: row, None).
Proof. intros [-> | [-> | ->]]; reflexivity. Qed.

Lemma closes_cr st fld row :
  closes st -> step st fld row CR = (EatCrnl, [], [], Some (rev (field_of fld :: row))).
Proof. intros [-> | [-> | ->]]; reflexivity. Qed.

Lemma parse_quote_field f row t :
  exists st fld, closes st /\ field_of fld = f /\
    parse StartField [] row (String.append (quote_field f) t) = parse st fld row t.
Proof.
  unfold quote_field. destruct (needs_quote f) eqn:Q.
  - exists QuoteInQuotedField, ((rev (list_ascii_of_string f) ++ [])%list).
    split; [right; right; reflexivity|]. split; [apply field_of_rev|].
    simpl String.append.
    rewrite (parse_step_none _ _ _ _ _ InQuotedField [] row) by reflexivity.
    rewrite sappend_assoc, parse_double_quotes. simpl String.append.
    apply parse_step_none. reflexivity.
  - destruct f as [|c f].
    + exists StartField, []. split; [left; reflexivity|]. split; reflexivity.
    + exists InField, ((rev (list_ascii_of_string (String c f)) ++ [])%list).
      split; [right; left; reflexivity|]. split; [apply field_of_rev|].
      pose proof (needs_quote_cons _ _ Q) as (H1 & H2 & H3 & H4).
      simpl String.append.
      rewrite (parse_step_none _ _ _ _ _ InField [c] row)
        by (simpl; unfold step_start_field; now rewrite H3, H2, H1).
      rewrite parse_plain by exact H4. simpl. now rewrite <- app_assoc.
Qed.

Lemma parse_join fs row t :
  fs <> [] ->
  parse StartField [] row (String.append (join_fields fs) (String.append CRLF t))
  = (rev row ++ fs) :: parse StartRecord [] [] t.
Proof.
  revert row. induction fs as [|f fs IH]; intros row Hne; [congruence|].
  destruct fs as [|g gs].
  - simpl join_fields.
    destruct (parse_quote_field f row (String.append CRLF t)) as (st & fld & Hc & Hf & ->).
    simpl String.append.
    rewrite (parse_step_some _ _ _ _ _ EatCrnl [] [] (rev (field_of fld :: row)))
      by (apply closes_cr; exact Hc).
    rewrite (parse_step_none _ _ _ _ _ StartRecord [] []) by reflexivity.
    simpl. now rewrite Hf.
  - change (join_fields (f :: g :: gs))
      with (String.append (quote_field f) (String COMMA (join_fields (g :: gs)))).
    rewrite sappend_assoc.
    destruct (parse_quote_field f row (String.append (String COMMA (join_fields (g :: gs)))
                (String.append CRLF t))) as (st & fld & Hc & Hf & ->).
    simpl String.append at 1.
    rewrite (parse_step_none _ _ _ _ _ StartField [] (field_of fld :: row))
      by (apply closes_comma; exact Hc).
    rewrite IH by discriminate. rewrite Hf. simpl. now rewrite <- app_assoc.
Qed.

Lemma parse_start_record c s :
  is_eol c = false ->
  parse StartRecord [] [] (String c s) = parse StartField [] [] (String c s).
Proof. intros H. simpl. unfold step_start_record. now rewrite H. Qed.

Lemma quote_field_head c f :
  exists c' s, quote_field (String c f) = String c' s /\ is_eol c' = false.
Proof.
  unfold quote_field. destruct (needs_quote (String c f)) eqn:Q.
  - eexists _, _. split; reflexivity.
  - apply needs_quote_cons in Q as (_ & _ & H & _). eexists _, _. split; [reflexivity|exact H].
Qed.

Lemma parse_writerow r t :
  parse StartRecord [] [] (String.append (writerow r) t)
  = r :: parse StartRecord [] [] t.
Proof.
  destruct r as [|f fs]; [reflexivity|].
  destruct f as [|c f].
  - destruct fs as [|g gs]; [reflexivity|].
    change (writerow (EmptyString :: g :: gs))
      with (String.append (join_fields (EmptyString :: g :: gs)) CRLF).
    rewrite sappend_assoc.
    change (String.append (join_fields (EmptyString :: g :: gs)) (String.append CRLF t))
      with (String COMMA (String.append (join_fields (g :: gs)) (String.append CRLF t))).
    rewrite parse_start_record by reflexivity.
    change (String COMMA (String.append (join_fields (g :: gs)) (String.append CRLF t)))
      with (String.append (join_fields (EmptyString :: g :: gs)) (String.append CRLF t)).
    rewrite parse_join by discriminate. reflexivity.
  - assert (Hw : writerow (String c f :: fs) = String.append (join_fields (String c f :: fs)) CRLF)
      by (destruct fs; reflexivity).
    rewrite Hw, sappend_assoc.
    assert (Hj : exists c' s, join_fields (String c f :: fs) = String c' s /\ is_eol c' = false).
    { destruct (quote_field_head c f) as (c' & s & Hq & He).
      destruct fs as [|g gs]; simpl join_fields; rewrite Hq.
      - eauto.
      - exists c', (String.append s (String COMMA (join_fields (g :: gs)))). eauto. }
    destruct Hj as (c' & s & Hj & He).
    assert (Hs : forall X, parse StartRecord [] [] (String.append (join_fields (String c f :: fs)) X)
                 = parse StartField [] [] (String.append (join_fields (String c f :: fs)) X)).
    { intros X. rewrite Hj. simpl String.append. now apply parse_start_record. }
    rewrite Hs, parse_join by discriminate. reflexivity.
Qed.

(** Reading back what [writerows] wrote gives the same rows. *)
Lemma reader_writerows rows : reader (writerows rows) = rows.
Proof.
  unfold reader. induction rows as [|r rs IH]; [reflexivity|].
  simpl writerows. now rewrite parse_writerow, IH.
Qed.

Lemma reader_writerows_app rows t :
  parse StartRecord [] [] (String.append (writerows rows) t)
  = rows ++ parse StartRecord [] [] t.
Proof.
  induction rows as [|r rs IH]; [reflexivity|].
  simpl writerows. rewrite sappend_assoc, parse_writerow, IH. reflexivity.
Qed.

End CsvFacts.

(** * Facts about the tracker *)
Module LogFacts.
Import CsvFacts.
Local Open Scope list_scope.

Lemma render_CStr (r : list string) : map render (map CStr r) = r.
Proof. rewrite map_map. apply map_id. Qed.

Lemma render_read_rows (rs : list (list string)) :
  map (map render) (map (map CStr) rs) = rs.
Proof.
  rewrite map_map. rewrite <- (map_id rs) at 2. apply map_ext. apply render_CStr.
Qed.

Lemma render_new_row d : map render (new_row d) = zero_row d.
Proof. reflexivity. Qed.

Lemma reader_write_rows rows : Csv.reader (write_rows rows) = map (map render) rows.
Proof. apply reader_writerows. Qed.

Lemma write_rows_read t rs :
  write_rows (read_rows t ++ rs) = Csv.writerows (Csv.reader t ++ map (map render) rs).
Proof. unfold write_rows, read_rows. now rewrite map_app, render_read_rows. Qed.

Lemma date_in_rows_found d rs :
  rows_nonempty rs -> In d (row_dates rs) ->
  date_in_rows (map (map CStr) rs) d = Some true.
Proof.
  induction 1 as [|r rs Hr Hrs IH]; [simpl; tauto|].
  destruct r as [|x r]; [congruence|]. simpl.
  destruct (String.eqb_spec x d) as [->|Hne]; [reflexivity|].
  intros [->|Hin]; [congruence|]. now apply IH.
Qed.

Lemma date_in_rows_absent d rs :
  rows_nonempty rs -> ~ In d (row_dates rs) ->
  date_in_rows (map (map CStr) rs) d = Some false.
Proof.
  induction 1 as [|r rs Hr Hrs IH]; [reflexivity|].
  destruct r as [|x r]; [congruence|]. simpl. intros Hn.
  destruct (String.eqb_spec x d) as [->|Hne]; [tauto|].
  apply IH. tauto.
Qed.

Lemma date_in_rows_app d rs rest :
  date_in_rows rs d = Some false -> date_in_rows (rs ++ rest) d = date_in_rows rest d.
Proof.
  induction rs as [|r rs IH]; [reflexivity|]. simpl.
  destruct r as [|c r]; [discriminate|].
  destruct (cell_eq_date c d); [discriminate|]. exact IH.
Qed.

(** The row set [check_or_initialize_date] leaves holds a row of the date. *)
Definition has_date_row (d : string) (rows : list (list cell)) : Prop :=
  Exists (fun r => exists c rest, r = c :: rest /\ cell_eq_date c d = true) rows.

Lemma date_in_rows_true d rows :
  date_in_rows rows d = Some true -> has_date_row d rows.
Proof.
  induction rows as [|r rs IH]; [discriminate|]. simpl.
  destruct r as [|c r]; [discriminate|].
  destruct (cell_eq_date c d) eqn:E.
  - intros _. apply Exists_cons_hd. eauto.
  - intros H. apply Exists_cons_tl. now apply IH.
Qed.

Lemma new_row_has_date d : has_date_row d [new_row d].
Proof. apply Exists_cons_hd. exists (CStr d). eexists. split; [reflexivity|]. apply String.eqb_refl. Qed.

Lemma ensure_has_date_row f d rows f' :
  check_or_initialize_date f d = Ok rows f' -> has_date_row d rows.
Proof.
  unfold check_or_initialize_date. destruct f as [t|].
  - destruct (date_in_rows (read_rows t) d) as [[|]|] eqn:E; intros H; inversion H; subst.
    + now apply date_in_rows_true.
    + apply Exists_app. right. apply new_row_has_date.
  - intros H; inversion H; subst. apply new_row_has_date.
Qed.

Lemma ensure_none d :
  check_or_initialize_date None d = Ok [new_row d] (Some (Csv.writerows [zero_row d])).
Proof. reflexivity. Qed.

Lemma ensure_found t d :
  rows_nonempty (Csv.reader t) -> In d (row_dates (Csv.reader t)) ->
  check_or_initialize_date (Some t) d = Ok (read_rows t) (Some t).
Proof.
  intros Hn Hi. unfold check_or_initialize_date, read_rows.
  now rewrite date_in_rows_found.
Qed.

Lemma ensure_absent t d :
  rows_nonempty (Csv.reader t) -> ~ In d (row_dates (Csv.reader t)) ->
  check_or_initialize_date (Some t) d
  = Ok (read_rows t ++ [new_row d]) (Some (Csv.writerows (Csv.reader t ++ [zero_row d]))).
Proof.
  intros Hn Hi. unfold check_or_initialize_date.
  unfold read_rows at 1. rewrite date_in_rows_absent by assumption.
  rewrite write_rows_read. reflexivity.
Qed.

Lemma row_dates_app rs rs' : row_dates (rs ++ rs') = row_dates rs ++ row_dates rs'.
Proof. apply flat_map_app. Qed.

Lemma rows_nonempty_app rs rs' :
  rows_nonempty rs -> rows_nonempty rs' -> rows_nonempty (rs ++ rs').
Proof. intros; now apply Forall_app. Qed.

Lemma well_formed_nonempty rs : rows_well_formed rs -> rows_nonempty rs.
Proof.
  apply Forall_impl. intros r Hr ->. discriminate.
Qed.

Lemma zero_row_length d : length (zero_row d) = S (length activities).
Proof. reflexivity. Qed.

Lemma append_empty_r (s : string) : String.append s EmptyString = s.
Proof. induction s as [|c s IH]; simpl; [reflexivity | now rewrite IH]. Qed.

Lemma index_of_none x l : ~ In x l -> index_of x l = None.
Proof.
  induction l as [|y l IH]; intros Hn; [reflexivity|]. simpl.
  destruct (String.eqb_spec y x) as [->|_]; [simpl in Hn; tauto|].
  rewrite IH; [reflexivity|]. simpl in Hn; tauto.
Qed.

Lemma index_of_nth x l i : index_of x l = Some i -> nth_error l i = Some x.
Proof.
  revert i. induction l as [|y l IH]; intros i H; [discriminate|]. simpl in H.
  destruct (String.eqb_spec y x) as [->|_].
  - now inversion H.
  - destruct (index_of x l) as [k|] eqn:E; simpl in H; inversion H; subst.
    simpl. now apply IH.
Qed.

Lemma index_of_some x l :
  In x l -> exists i, index_of x l = Some i /\ i < length l.
Proof.
  induction l as [|y l IH]; intros Hin; [contradiction|]. simpl.
  destruct (String.eqb_spec y x) as [->|Hne].
  - exists 0. split; [reflexivity|simpl; lia].
  - destruct Hin as [->|Hin]; [congruence|].
    destruct (IH Hin) as (i & -> & Hl). exists (S i). simpl. split; [reflexivity|lia].
Qed.

Lemma list_set_length {A} (r : list A) j v r' :
  list_set r j v = Some r' -> length r' = length r.
Proof.
  revert j r'. induction r as [|x r IH]; intros [|j] r' H; simpl in H; try discriminate.
  - now inversion H.
  - destruct (list_set r j v) eqn:E; simpl in H; inversion H; subst.
    simpl. f_equal. eapply IH; eauto.
Qed.

Lemma list_set_some {A} (r : list A) j v :
  j < length r -> exists r', list_set r j v = Some r'.
Proof.
  revert j. induction r as [|x r IH]; intros [|j] H; simpl in *; try lia; eauto.
  destruct (IH j) as [r' E]; [lia|]. rewrite E. simpl. eauto.
Qed.

Lemma list_set_nth {A} (r : list A) j v r' m :
  list_set r j v = Some r' ->
  nth_error r' m = if Nat.eqb m j then Some v else nth_error r m.
Proof.
  revert j r' m. induction r as [|x r IH]; intros [|j] r' m H; simpl in H; try discriminate.
  - inversion H; subst. destruct m; reflexivity.
  - destruct (list_set r j v) eqn:E; simpl in H; inversion H; subst.
    destruct m; simpl; [reflexivity|]. now apply IH.
Qed.

Lemma list_set_map {A B} (h : A -> B) r j v :
  list_set (map h r) j (h v) = option_map (map h) (list_set r j v).
Proof.
  revert j. induction r as [|x r IH]; intros [|j]; simpl; try reflexivity.
  rewrite IH. now destruct (list_set r j v).
Qed.

Lemma set_field_length d j w r : length (set_field d j w r) = length r.
Proof.
  unfold set_field. destruct r as [|x r']; [reflexivity|].
  destruct (String.eqb x d); [|reflexivity].
  destruct (list_set (x :: r') j w) eqn:E; [now apply list_set_length in E | reflexivity].
Qed.

Lemma set_field_cons d i w x r :
  exists r', set_field d (S i) w (x :: r) = x :: r'.
Proof.
  unfold set_field. destruct (String.eqb x d); [|eauto].
  simpl. destruct (list_set r i w); simpl; eauto.
Qed.

Lemma set_field_other_date d j w r : hd_error r <> Some d -> set_field d j w r = r.
Proof.
  unfold set_field. destruct r as [|x r']; [reflexivity|]. simpl. intros H.
  destruct (String.eqb_spec x d); [congruence|reflexivity].
Qed.

Lemma set_field_nth d j w r m :
  hd_error r = Some d -> j < length r ->
  nth_error (set_field d j w r) m = if Nat.eqb m j then Some w else nth_error r m.
Proof.
  unfold set_field. destruct r as [|x r']; [discriminate|]. intros H Hj.
  simpl in H. inversion H; subst. rewrite String.eqb_refl.
  destruct (list_set_some (d :: r') j w Hj) as [r'' E]. rewrite E.
  now apply list_set_nth.
Qed.

Lemma row_dates_set_field d i w rs :
  row_dates (map (set_field d (S i) w) rs) = row_dates rs.
Proof.
  induction rs as [|r rs IH]; [reflexivity|]. simpl.
  destruct r as [|x r]; [exact IH|].
  destruct (set_field_cons d i w x r) as [r' ->]. simpl. now rewrite IH.
Qed.

Lemma well_formed_set_field d j w rs :
  rows_well_formed rs -> rows_well_formed (map (set_field d j w) rs).
Proof.
  unfold rows_well_formed. rewrite Forall_map. apply Forall_impl.
  intros r Hr. now rewrite set_field_length.
Qed.

(** Rows read from the file or created by [check_or_initialize_date] start
    with a string, and a row of the date is long enough for column [S i]. *)
Definition loop_ready (d : string) (i : nat) (rows : list (list cell)) : Prop :=
  Forall (fun r => exists s rest, r = CStr s :: rest /\ (s = d -> S i < length r)) rows.

Lemma update_loop_ok d a v i rows acc :
  index_of a activity_keys = Some i -> loop_ready d i rows ->
  update_loop d a v rows acc
  = Ok tt (Some (String.append acc (Csv.writerows
      (map (set_field d (S i) (render (written_value a v))) (map (map render) rows))))).
Proof.
  intros Hi H. revert acc.
  induction H as [|r rows (s & rest & -> & Hlen) Hrs IH]; intros acc.
  - simpl. now rewrite append_empty_r.
  - cbn [update_loop]. unfold cell_eq_date.
    destruct (String.eqb_spec s d) as [->|Hne].
    + rewrite Hi.
      destruct (list_set_some (CStr d :: rest) (S i) (written_value a v)) as [r' E];
        [now apply Hlen|].
      rewrite E, IH.
      assert (Es : list_set (d :: map render rest) (S i) (render (written_value a v))
                   = Some (map render r')).
      { change (d :: map render rest) with (map render (CStr d :: rest)).
        now rewrite list_set_map, E. }
      cbn [Csv.writerows map]. rewrite sappend_assoc.
      replace (set_field d (S i) (render (written_value a v)) (render (CStr d) :: map render rest))
        with (map render r'); [reflexivity|].
      unfold set_field. cbn [render]. now rewrite String.eqb_refl, Es.
    + apply String.eqb_neq in Hne. rewrite IH.
      cbn [Csv.writerows map]. rewrite sappend_assoc.
      replace (set_field d (S i) (render (written_value a v)) (render (CStr s) :: map render rest))
        with (render (CStr s) :: map render rest); [reflexivity|].
      unfold set_field. cbn [render]. now rewrite Hne.
Qed.

Lemma update_loop_unknown d a v rows acc :
  index_of a activity_keys = None ->
  Forall (fun r => exists s rest, r = CStr s :: rest) rows ->
  In d (row_dates (map (map render) rows)) ->
  update_loop d a v rows acc
  = Err (ValueError a) (Some (String.append acc (Csv.writerows (rows_before d (map (map render) rows))))).
Proof.
  intros Hi H. revert acc.
  induction H as [|r rows (s & rest & ->) Hrs IH]; intros acc Hin; [contradiction|].
  cbn [update_loop]. unfold cell_eq_date.
  cbn [map render row_dates flat_map] in Hin |- *. cbn [rows_before].
  destruct (String.eqb_spec s d) as [->|Hne].
  - rewrite Hi. simpl. now rewrite append_empty_r.
  - destruct Hin as [->|Hin]; [congruence|].
    rewrite IH by exact Hin. cbn [Csv.writerows]. now rewrite sappend_assoc.
Qed.

Lemma update_loop_not_ok d a v rows acc :
  index_of a activity_keys = None -> has_date_row d rows ->
  forall u f', update_loop d a v rows acc <> Ok u f'.
Proof.
  intros Hi H. revert acc.
  induction H as [r rows (c & rest & -> & Hc)|r rows H IH]; intros acc u f'; cbn [update_loop].
  - rewrite Hc, Hi. discriminate.
  - destruct r as [|c rest]; [discriminate|].
    destruct (cell_eq_date c d); [rewrite Hi; discriminate|]. apply IH.
Qed.

Lemma read_rows_ready d i t :
  rows_well_formed (Csv.reader t) -> i < length activities ->
  loop_ready d i (read_rows t).
Proof.
  intros H Hi. unfold loop_ready, read_rows. rewrite Forall_map.
  eapply Forall_impl; [|exact H]. intros r Hr.
  destruct r as [|x r]; [discriminate|]. exists x, (map CStr r).
  split; [reflexivity|]. intros _. cbn [length map] in Hr |- *. rewrite length_map. lia.
Qed.

Lemma new_row_ready d i : i < length activities -> loop_ready d i [new_row d].
Proof.
  intros Hi. constructor; [|constructor]. eexists _, _. split; [reflexivity|].
  intros _. unfold new_row. cbn [length]. rewrite repeat_length. lia.
Qed.

Lemma update_well_formed t d a v :
  rows_well_formed (Csv.reader t) -> In a activity_keys ->
  exists i R, index_of a activity_keys = Some i /\ i < length activities /\
    ((R = Csv.reader t /\ In d (row_dates (Csv.reader t)))
     \/ (R = Csv.reader t ++ [zero_row d] /\ ~ In d (row_dates (Csv.reader t)))) /\
    update_activity (Some t) d a v
    = Ok tt (Some (Csv.writerows (map (set_field d (S i) (render (written_value a v))) R))).
Proof.
  intros Hw Ha. destruct (index_of_some a activity_keys Ha) as (i & Hi & Hl).
  unfold activity_keys in Hl. rewrite length_map in Hl.
  destruct (in_dec string_dec d (row_dates (Csv.reader t))) as [Hin|Hout].
  - exists i, (Csv.reader t). split; [exact Hi|]. split; [exact Hl|].
    split; [left; auto|].
    unfold update_activity. rewrite ensure_found by (auto using well_formed_nonempty).
    rewrite (update_loop_ok d a v i) by (auto using read_rows_ready).
    unfold read_rows. now rewrite render_read_rows.
  - exists i, (Csv.reader t ++ [zero_row d]). split; [exact Hi|]. split; [exact Hl|].
    split; [right; auto|].
    unfold update_activity. rewrite ensure_absent by (auto using well_formed_nonempty).
    rewrite (update_loop_ok d a v i).
    + unfold read_rows. rewrite map_app, render_read_rows. reflexivity.
    + exact Hi.
    + apply Forall_app. split; [now apply read_rows_ready | now apply new_row_ready].
Qed.

Lemma print_table_ok headers row names :
  Forall (fun n => exists i, index_of n headers = Some i /\ i < length row) names ->
  print_table headers row names = None.
Proof.
  induction 1 as [|n ns (i & Hi & Hl) _ IH]; [reflexivity|]. cbn [print_table].
  rewrite Hi. destruct (nth_error row i) eqn:E; [exact IH|].
  apply nth_error_None in E. lia.
Qed.

Lemma header_columns :
  Forall (fun n => exists i, index_of n header_row = Some i /\ i < S (length activities))
    display_columns.
Proof.
  unfold display_columns.
  repeat (apply Forall_cons; [eexists; split; [reflexivity | cbn; lia] |]).
  apply Forall_nil.
Qed.

Lemma print_table_header row :
  length row = S (length activities) ->
  print_table header_row row display_columns = None.
Proof.
  intros Hl. apply print_table_ok.
  eapply Forall_impl; [|exact header_columns]. intros n (i & Hi & Hlt).
  exists i. split; [exact Hi | lia].
Qed.

Lemma progress_skip h rs rest d :
  rows_nonempty rs -> ~ In d (row_dates rs) ->
  progress_loop h (rs ++ rest) d = progress_loop h rest d.
Proof.
  induction 1 as [|r rs Hr Hrs IH]; [reflexivity|]. intros Hn.
  destruct r as [|x r]; [congruence|]. simpl in Hn. cbn [app progress_loop].
  destruct (String.eqb_spec x d); [tauto|]. apply IH. tauto.
Qed.

Lemma progress_found d rs :
  rows_well_formed rs -> In d (row_dates rs) ->
  exists r, In r rs /\ hd_error r = Some d /\ progress_loop header_row rs d = Progress r.
Proof.
  induction 1 as [|r rs Hr Hrs IH]; [simpl; tauto|].
  destruct r as [|x r]; [discriminate|]. intros Hin. simpl in Hin. cbn [progress_loop].
  destruct (String.eqb_spec x d) as [->|Hne].
  - exists (d :: r). split; [left; reflexivity|]. split; [reflexivity|].
    now rewrite print_table_header.
  - destruct Hin as [->|Hin]; [congruence|].
    destruct (IH Hin) as (r' & Hi & Hh & He). exists r'. split; [right; exact Hi|]. auto.
Qed.

Lemma set_field_hd d i w r : hd_error (set_field d (S i) w r) = hd_error r.
Proof.
  destruct r as [|x r]; [reflexivity|].
  destruct (set_field_cons d i w x r) as [r' ->]. reflexivity.
Qed.

Lemma date_not_key : ~ In "Date" activity_keys.
Proof. cbn. intuition discriminate. Qed.

Lemma index_of_header a i :
  In a activity_keys -> index_of a activity_keys = Some i ->
  index_of a header_row = Some (S i).
Proof.
  intros Ha Hi. unfold header_row. cbn [index_of].
  destruct (String.eqb_spec "Date" a) as [<-|_]; [now apply date_not_key in Ha|].
  now rewrite Hi.
Qed.

Lemma header_well_formed : length header_row = S (length activities).
Proof. reflexivity. Qed.

Lemma row_dates_zero_rows ds : row_dates (map zero_row ds) = ds.
Proof. induction ds as [|d ds IH]; [reflexivity|]. simpl. now rewrite IH. Qed.

Lemma str_headed_read rs :
  rows_nonempty rs ->
  Forall (fun r => exists s rest, r = CStr s :: rest) (map (map CStr) rs).
Proof.
  intros H. rewrite Forall_map. eapply Forall_impl; [|exact H].
  intros r Hr. destruct r as [|x r]; [congruence|]. now exists x, (map CStr r).
Qed.

Lemma str_headed_new d : Forall (fun r => exists s rest, r = CStr s :: rest) [new_row d].
Proof. constructor; [now eexists _, _ | constructor]. Qed.

Lemma update_unknown f d a v :
  ~ In a activity_keys -> file_rows_nonempty f ->
  exists rows f1,
    check_or_initialize_date f d = Ok rows f1 /\
    In d (row_dates (map (map render) rows)) /\
    update_activity f d a v
    = Err (ValueError a) (Some (Csv.writerows (rows_before d (map (map render) rows)))).
Proof.
  intros Ha Hf. pose proof (index_of_none a activity_keys Ha) as Hi.
  destruct f as [t|].
  - simpl in Hf. destruct (in_dec string_dec d (row_dates (Csv.reader t))) as [Hin|Hout].
    + exists (read_rows t), (Some t). rewrite ensure_found by assumption.
      unfold read_rows. rewrite render_read_rows.
      split; [reflexivity|]. split; [exact Hin|].
      unfold update_activity. rewrite ensure_found by assumption.
      rewrite update_loop_unknown; unfold read_rows; rewrite ?render_read_rows; auto.
      now apply str_headed_read.
    + exists (read_rows t ++ [new_row d]), (Some (Csv.writerows (Csv.reader t ++ [zero_row d]))).
      rewrite ensure_absent by assumption.
      assert (Hr : map (map render) (read_rows t ++ [new_row d]) = Csv.reader t ++ [zero_row d]).
      { unfold read_rows. rewrite map_app, render_read_rows. reflexivity. }
      rewrite Hr. split; [reflexivity|].
      assert (Hd : In d (row_dates (Csv.reader t ++ [zero_row d]))).
      { rewrite row_dates_app. apply in_or_app. right. left. reflexivity. }
      split; [exact Hd|].
      unfold update_activity. rewrite ensure_absent by assumption.
      rewrite update_loop_unknown; rewrite ?Hr; auto.
      apply Forall_app. split; [now apply str_headed_read | apply str_headed_new].
  - exists [new_row d], (Some (Csv.writerows [zero_row d])).
    rewrite ensure_none. split; [reflexivity|].
    split; [simpl; auto|].
    unfold update_activity. rewrite ensure_none.
    rewrite update_loop_unknown; auto.
    + apply str_headed_new.
    + simpl; auto.
Qed.

Lemma rows_before_split d rs :
  In d (row_dates rs) ->
  exists r lost, rs = rows_before d rs ++ r :: lost /\ hd_error r = Some d.
Proof.
  induction rs as [|r rs IH]; [simpl; tauto|]. intros Hin.
  destruct r as [|x r].
  - destruct (IH Hin) as (r' & lost & He & Hh). exists r', lost. simpl. now rewrite <- He.
  - simpl in Hin |- *. destruct (String.eqb_spec x d) as [->|Hne].
    + exists (d :: r), rs. split; reflexivity.
    + destruct Hin as [->|Hin]; [congruence|].
      destruct (IH Hin) as (r' & lost & He & Hh). exists r', lost. simpl. now rewrite <- He.
Qed.

Lemma ensure_twice f d rows f1 :
  check_or_initialize_date f d = Ok rows f1 ->
  exists rows', check_or_initialize_date f1 d = Ok rows' f1.
Proof.
  assert (Hz : date_in_rows [map CStr (zero_row d)] d = Some true).
  { cbn. now rewrite String.eqb_refl. }
  unfold check_or_initialize_date at 1. destruct f as [t|].
  - destruct (date_in_rows (read_rows t) d) as [[|]|] eqn:E; intros H; inversion H; subst.
    + unfold check_or_initialize_date. rewrite E. eauto.
    + set (t1 := write_rows (read_rows t ++ [new_row d])).
      assert (Hd : date_in_rows (read_rows t1) d = Some true).
      { unfold t1, read_rows at 1. rewrite reader_write_rows, !map_app.
        change (map (map CStr) (map (map render) [new_row d])) with [map CStr (zero_row d)].
        unfold read_rows in E |- *. rewrite render_read_rows.
        rewrite date_in_rows_app by exact E. exact Hz. }
      unfold check_or_initialize_date. rewrite Hd. eauto.
  - intros H; inversion H; subst.
    set (t1 := write_rows [new_row d]).
    assert (Hd : date_in_rows (read_rows t1) d = Some true).
    { unfold t1, read_rows. rewrite reader_write_rows. exact Hz. }
    unfold check_or_initialize_date. rewrite Hd. eauto.
Qed.

Lemma ensure_run_distinct pre ds :
  NoDup (pre ++ ds) -> ~ In "Date" (pre ++ ds) ->
  run_ops (map EnsureRow ds) (Some (Csv.writerows (header_row :: map zero_row pre)))
  = Some (Some (Csv.writerows (header_row :: map zero_row (pre ++ ds)))).
Proof.
  revert pre. induction ds as [|d ds IH]; intros pre Hnd Hdate.
  - now rewrite app_nil_r.
  - cbn [map run_ops run_op].
    set (t := Csv.writerows (header_row :: map zero_row pre)).
    assert (Hr : Csv.reader t = header_row :: map zero_row pre) by apply reader_writerows.
    rewrite ensure_absent.
    + rewrite Hr. replace ((header_row :: map zero_row pre) ++ [zero_row d])
        with (header_row :: map zero_row (pre ++ [d])) by (now rewrite map_app).
      rewrite IH; rewrite <- ?app_assoc; auto.
    + rewrite Hr. constructor; [discriminate|].
      rewrite Forall_map. apply Forall_forall. intros x _. discriminate.
    + rewrite Hr. simpl row_dates. rewrite row_dates_zero_rows. intros [Hd|Hd].
      * apply Hdate. rewrite Hd. apply in_or_app. right. left. reflexivity.
      * apply NoDup_remove_2 in Hnd. apply Hnd. now apply in_or_app; left.
Qed.

End LogFacts.

(** * The claims *)
Module Claims.
Import CsvFacts LogFacts.
Local Open Scope list_scope.

(** C1 (corrected): for a date not yet in the file (absent, or with no
    empty row), [check_or_initialize_date] appends exactly one row, the date
    followed by ["0"] for every activity (the numeric ones included), and
    keeps the rows before it; when the file starts with the header of
    [initialize_csv], the lookup of [display_progress] then returns that
    row. *)
Theorem ensure_row_appends_zero_row (f : fstate) (date : string) :
  file_rows_nonempty f ->
  ~ In date (row_dates (file_rows f)) ->
  exists text',
    check_or_initialize_date f date
      = Ok (map (map CStr) (file_rows f) ++ [new_row date]) (Some text')
    /\ Csv.reader text' = file_rows f ++ [zero_row date]
    /\ (forall rows, file_rows f = header_row :: rows ->
          display_progress (Some text') date = Progress (zero_row date)).
Proof.
  intros Hn Hd. destruct f as [text|].
  - cbn [file_rows file_rows_nonempty] in *.
    exists (Csv.writerows (Csv.reader text ++ [zero_row date])).
    split; [rewrite ensure_absent by assumption; reflexivity|].
    split; [apply reader_writerows|].
    intros rows Hr. rewrite Hr in Hn, Hd.
    unfold display_progress. rewrite reader_writerows, Hr. cbn [app].
    rewrite progress_skip.
    + unfold zero_row at 1. cbn [progress_loop]. rewrite String.eqb_refl.
      change (date :: repeat "0" (length activities)) with (zero_row date).
      rewrite print_table_header by apply zero_row_length. reflexivity.
    + inversion Hn; assumption.
    + simpl in Hd. tauto.
  - exists (Csv.writerows [zero_row date]).
    split; [apply ensure_none|]. split; [apply reader_writerows|].
    intros rows Hr. discriminate Hr.
Qed.

Lemma ensure_row_appends_zero_row_witness :
  file_rows_nonempty (Some fresh_log)
  /\ ~ In sample_date (row_dates (file_rows (Some fresh_log)))
  /\ exists text',
       check_or_initialize_date (Some fresh_log) sample_date
         = Ok (map (map CStr) (file_rows (Some fresh_log)) ++ [new_row sample_date])
              (Some text')
       /\ Csv.reader text' = file_rows (Some fresh_log) ++ [zero_row sample_date]
       /\ (forall rows, file_rows (Some fresh_log) = header_row :: rows ->
             display_progress (Some text') sample_date = Progress (zero_row sample_date)).
Proof.
  assert (H1 : file_rows_nonempty (Some fresh_log))
    by (vm_compute; repeat constructor; discriminate).
  assert (H2 : ~ In sample_date (row_dates (file_rows (Some fresh_log))))
    by (vm_compute; intuition discriminate).
  split; [exact H1|]. split; [exact H2|].
  exact (ensure_row_appends_zero_row (Some fresh_log) sample_date H1 H2).
Defined.

(** C1 counterexample: after [initialize_csv] and [check_or_initialize_date]
    on a new date, the Tahajjud column of the new row holds ["0"], while the
    configured default of Tahajjud is 2. *)
Lemma ensure_row_default_counterexample :
  exists rows f',
    check_or_initialize_date (initialize_csv None) sample_date = Ok rows f'
    /\ display_progress f' sample_date = Progress (zero_row sample_date)
    /\ index_of "Tahajjud" header_row = Some 1
    /\ nth_error (zero_row sample_date) 1 = Some "0"
    /\ render (default_value "Tahajjud") = "2".
Proof.
  eexists _, _. split; [reflexivity|].
  split; [vm_compute; reflexivity|].
  repeat split; vm_compute; reflexivity.
Qed.

(** C2: when the file already holds a row of the date (and no empty row),
    [check_or_initialize_date] returns the rows read and leaves the file as
    it is; and whatever the file, a second call after a successful first one
    raises nothing and leaves the file as the first call left it. *)
Theorem ensure_row_idempotent (text date : string) :
  rows_nonempty (Csv.reader text) ->
  In date (row_dates (Csv.reader text)) ->
  check_or_initialize_date (Some text) date = Ok (read_rows text) (Some text)
  /\ (forall f rows f1, check_or_initialize_date f date = Ok rows f1 ->
        exists rows', check_or_initialize_date f1 date = Ok rows' f1).
Proof.
  intros Hn Hin. split; [now apply ensure_found|].
  intros f rows f1. apply ensure_twice.
Qed.

Lemma ensure_row_idempotent_witness :
  rows_nonempty (Csv.reader sample_log)
  /\ In sample_date (row_dates (Csv.reader sample_log))
  /\ check_or_initialize_date (Some sample_log) sample_date
       = Ok (read_rows sample_log) (Some sample_log)
  /\ (forall f rows f1, check_or_initialize_date f sample_date = Ok rows f1 ->
        exists rows', check_or_initialize_date f1 sample_date = Ok rows' f1).
Proof.
  assert (H1 : rows_nonempty (Csv.reader sample_log))
    by (vm_compute; repeat constructor; discriminate).
  assert (H2 : In sample_date (row_dates (Csv.reader sample_log)))
    by (vm_compute; right; left; reflexivity).
  split; [exact H1|]. split; [exact H2|].
  exact (ensure_row_idempotent sample_log sample_date H1 H2).
Defined.

(** C10: when the log file is absent, [check_or_initialize_date] creates it
    with the single new data row and no header row; only [initialize_csv]
    writes the header. *)
Theorem ensure_row_absent_file_no_header (date : string) :
  check_or_initialize_date None date = Ok [new_row date] (Some (Csv.writerows [zero_row date]))
  /\ Csv.reader (Csv.writerows [zero_row date]) = [zero_row date]
  /\ zero_row date <> header_row
  /\ initialize_csv None = Some (Csv.writerows [header_row])
  /\ (forall text, initialize_csv (Some text) = Some text).
Proof.
  split; [apply ensure_none|]. split; [apply reader_writerows|].
  split; [|split; reflexivity].
  intros H. apply (f_equal (fun r => nth_error r 1)) in H. vm_compute in H. discriminate.
Qed.

(** C5: [display_progress] answers "No progress recorded yet." when the log
    file is absent and "No progress recorded for <date>." when the file
    exists (with a header row and no empty row) but holds no row of the date;
    the two outcomes differ. *)
Theorem query_absent_vs_missing_date (text date : string) (headers : list string)
    (rows : list (list string)) :
  Csv.reader text = headers :: rows ->
  rows_nonempty rows ->
  ~ In date (row_dates rows) ->
  display_progress None date = NoProgressYet
  /\ display_progress (Some text) date = NoProgressForDate
  /\ NoProgressYet <> NoProgressForDate.
Proof.
  intros Hr Hn Hd. split; [reflexivity|]. split; [|discriminate].
  unfold display_progress. rewrite Hr.
  rewrite <- (app_nil_r rows). now rewrite progress_skip.
Qed.

Lemma query_absent_vs_missing_date_witness :
  Csv.reader sample_log = header_row :: [zero_row sample_date]
  /\ rows_nonempty [zero_row sample_date]
  /\ ~ In "02-01-2025" (row_dates [zero_row sample_date])
  /\ display_progress None "02-01-2025" = NoProgressYet
  /\ display_progress (Some sample_log) "02-01-2025" = NoProgressForDate
  /\ NoProgressYet <> NoProgressForDate.
Proof.
  assert (H1 : Csv.reader sample_log = header_row :: [zero_row sample_date])
    by (vm_compute; reflexivity).
  assert (H2 : rows_nonempty [zero_row sample_date]) by (repeat constructor; discriminate).
  assert (H3 : ~ In "02-01-2025" (row_dates [zero_row sample_date]))
    by (vm_compute; intuition discriminate).
  split; [exact H1|]. split; [exact H2|]. split; [exact H3|].
  exact (query_absent_vs_missing_date sample_log "02-01-2025" header_row
           [zero_row sample_date] H1 H2 H3).
Defined.

(** C6: [update_activity] with a name that is not an activity never
    completes normally; when no row of the file is empty (or the file is
    absent) it raises the [ValueError] of [list.index] for that name. *)
Theorem update_unknown_field_fails (f : fstate) (date activity : string)
    (value : option string) :
  ~ In activity activity_keys ->
  (forall u f', update_activity f date activity value <> Ok u f')
  /\ (file_rows_nonempty f ->
      exists f', update_activity f date activity value = Err (ValueError activity) f').
Proof.
  intros Ha. split.
  - intros u f'. unfold update_activity.
    destruct (check_or_initialize_date f date) as [rows f1|e f1] eqn:E; [|discriminate].
    apply update_loop_not_ok; [now apply index_of_none|].
    eapply ensure_has_date_row. exact E.
  - intros Hf. destruct (update_unknown f date activity value Ha Hf)
      as (rows & f1 & _ & _ & ->). eauto.
Qed.

Lemma update_unknown_field_fails_witness :
  ~ In "Notes" activity_keys
  /\ (forall u f', update_activity (Some sample_log) sample_date "Notes" None <> Ok u f')
  /\ (file_rows_nonempty (Some sample_log) ->
      exists f', update_activity (Some sample_log) sample_date "Notes" None
                 = Err (ValueError "Notes") f').
Proof.
  assert (H : ~ In "Notes" activity_keys) by (vm_compute; intuition discriminate).
  split; [exact H|].
  exact (update_unknown_field_fails (Some sample_log) sample_date "Notes" None H).
Defined.

(** C9: [update_activity] with a name that is not an activity first makes
    sure the row of the date exists, then truncates the file and raises while
    rewriting it: the file is left with only the rows before the first row of
    the date, and that row and all rows after it are lost. *)
Theorem update_unknown_field_truncates (f : fstate) (date activity : string)
    (value : option string) :
  ~ In activity activity_keys ->
  file_rows_nonempty f ->
  exists rows f1 r lost,
    check_or_initialize_date f date = Ok rows f1
    /\ map (map render) rows = rows_before date (map (map render) rows) ++ r :: lost
    /\ hd_error r = Some date
    /\ update_activity f date activity value
       = Err (ValueError activity)
             (Some (Csv.writerows (rows_before date (map (map render) rows))))
    /\ Csv.reader (Csv.writerows (rows_before date (map (map render) rows)))
       = rows_before date (map (map render) rows).
Proof.
  intros Ha Hf. destruct (update_unknown f date activity value Ha Hf)
    as (rows & f1 & He & Hin & Hu).
  destruct (rows_before_split date _ Hin) as (r & lost & Hs & Hh).
  exists rows, f1, r, lost. repeat split; try assumption.
  apply reader_writerows.
Qed.

Lemma update_unknown_field_truncates_witness :
  ~ In "Notes" activity_keys
  /\ file_rows_nonempty (Some sample_log)
  /\ exists rows f1 r lost,
    check_or_initialize_date (Some sample_log) sample_date = Ok rows f1
    /\ map (map render) rows = rows_before sample_date (map (map render) rows) ++ r :: lost
    /\ hd_error r = Some sample_date
    /\ update_activity (Some sample_log) sample_date "Notes" None
       = Err (ValueError "Notes")
             (Some (Csv.writerows (rows_before sample_date (map (map render) rows))))
    /\ Csv.reader (Csv.writerows (rows_before sample_date (map (map render) rows)))
       = rows_before sample_date (map (map render) rows).
Proof.
  assert (H1 : ~ In "Notes" activity_keys) by (vm_compute; intuition discriminate).
  assert (H2 : file_rows_nonempty (Some sample_log))
    by (vm_compute; repeat constructor; discriminate).
  split; [exact H1|]. split; [exact H2|].
  exact (update_unknown_field_truncates (Some sample_log) sample_date "Notes" None H1 H2).
Defined.

(** C8: writing rows and reading the file back gives the same rows, in the
    same order, with every field as [csv.writer] wrote it ([str] of a number,
    the empty text for [None]); in particular the rows written by
    [check_or_initialize_date] for pairwise distinct dates, starting from the
    file of [initialize_csv], are read back in the order of the calls.  The
    [field_size_limit] of the reader is not modelled. *)
Theorem rows_round_trip (rows : list (list cell)) (dates : list string) :
  NoDup dates ->
  ~ In "Date" dates ->
  Csv.reader (write_rows rows) = map (map render) rows
  /\ run_ops (map EnsureRow dates) (initialize_csv None)
     = Some (Some (Csv.writerows (header_row :: map zero_row dates)))
  /\ Csv.reader (Csv.writerows (header_row :: map zero_row dates))
     = header_row :: map zero_row dates.
Proof.
  intros Hnd Hdate. split; [apply reader_write_rows|].
  split; [|apply reader_writerows].
  exact (ensure_run_distinct [] dates Hnd Hdate).
Qed.

Lemma rows_round_trip_witness :
  NoDup ["01-01-2025"; "02-01-2025"]
  /\ ~ In "Date" ["01-01-2025"; "02-01-2025"]
  /\ Csv.reader (write_rows [[CStr "01-01-2025"; CInt 2; CNone]; [CStr "a,b"; CStr (String Csv.DQ "q")]])
     = map (map render) [[CStr "01-01-2025"; CInt 2; CNone]; [CStr "a,b"; CStr (String Csv.DQ "q")]]
  /\ run_ops (map EnsureRow ["01-01-2025"; "02-01-2025"]) (initialize_csv None)
     = Some (Some (Csv.writerows (header_row :: map zero_row ["01-01-2025"; "02-01-2025"])))
  /\ Csv.reader (Csv.writerows (header_row :: map zero_row ["01-01-2025"; "02-01-2025"]))
     = header_row :: map zero_row ["01-01-2025"; "02-01-2025"].
Proof.
  assert (H1 : NoDup ["01-01-2025"; "02-01-2025"])
    by (repeat constructor; simpl; intuition discriminate).
  assert (H2 : ~ In "Date" ["01-01-2025"; "02-01-2025"]) by (simpl; intuition discriminate).
  split; [exact H1|]. split; [exact H2|].
  exact (rows_round_trip [[CStr "01-01-2025"; CInt 2; CNone]; [CStr "a,b"; CStr (String Csv.DQ "q")]]
           ["01-01-2025"; "02-01-2025"] H1 H2).
Defined.

Lemma well_formed_nth rs n r :
  rows_well_formed rs -> nth_error rs n = Some r -> length r = S (length activities).
Proof.
  intros Hw Hn. apply nth_error_In in Hn. unfold rows_well_formed in Hw.
  rewrite Forall_forall in Hw. now apply Hw.
Qed.

Lemma update_present t d a v :
  rows_well_formed (Csv.reader t) -> In d (row_dates (Csv.reader t)) -> In a activity_keys ->
  exists i, index_of a activity_keys = Some i /\ i < length activities /\
    update_activity (Some t) d a v
    = Ok tt (Some (Csv.writerows
                     (map (set_field d (S i) (render (written_value a v))) (Csv.reader t)))).
Proof.
  intros Hw Hin Ha. destruct (update_well_formed t d a v Hw Ha)
    as (i & R & Hi & Hl & [[-> _]|[_ Hout]] & Hu); [|contradiction].
  eauto.
Qed.

(** C4: on a well-formed file holding a row of the date, [update_activity]
    rewrites every row in its order, changes only the column of the activity
    in the rows of the date, and leaves all other rows as they were; a
    second update of another activity on the same date keeps the first
    value. *)
Theorem update_field_frame (text date activity : string) (value : option string) :
  rows_well_formed (Csv.reader text) ->
  In date (row_dates (Csv.reader text)) ->
  In activity activity_keys ->
  exists i text',
    index_of activity activity_keys = Some i
    /\ update_activity (Some text) date activity value = Ok tt (Some text')
    /\ Csv.reader text'
       = map (set_field date (S i) (render (written_value activity value))) (Csv.reader text)
    /\ (forall n r, nth_error (Csv.reader text) n = Some r ->
          (hd_error r <> Some date -> nth_error (Csv.reader text') n = Some r)
          /\ (hd_error r = Some date ->
              exists r', nth_error (Csv.reader text') n = Some r'
                /\ nth_error r' (S i) = Some (render (written_value activity value))
                /\ forall m, m <> S i -> nth_error r' m = nth_error r m))
    /\ (forall activity2 value2, In activity2 activity_keys -> activity2 <> activity ->
          exists text'',
            update_activity (Some text') date activity2 value2 = Ok tt (Some text'')
            /\ forall n r, nth_error (Csv.reader text) n = Some r -> hd_error r = Some date ->
                 exists r'', nth_error (Csv.reader text'') n = Some r''
                   /\ nth_error r'' (S i) = Some (render (written_value activity value))).
Proof.
  intros Hw Hin Ha. destruct (update_present text date activity value Hw Hin Ha)
    as (i & Hi & Hl & Hu).
  set (w := render (written_value activity value)) in *.
  set (text' := Csv.writerows (map (set_field date (S i) w) (Csv.reader text))) in *.
  assert (Hr : Csv.reader text' = map (set_field date (S i) w) (Csv.reader text))
    by apply reader_writerows.
  exists i, text'. split; [exact Hi|]. split; [exact Hu|]. split; [exact Hr|]. split.
  - intros n r Hn. rewrite Hr, nth_error_map, Hn. cbn [option_map]. split.
    + intros Hd. now rewrite set_field_other_date.
    + intros Hd. pose proof (well_formed_nth _ _ _ Hw Hn) as Hlen.
      exists (set_field date (S i) w r). split; [reflexivity|]. split.
      * rewrite set_field_nth by (assumption || lia). now rewrite Nat.eqb_refl.
      * intros m Hm. rewrite set_field_nth by (assumption || lia).
        destruct (Nat.eqb_spec m (S i)); [contradiction | reflexivity].
  - intros a2 v2 Ha2 Hne.
    assert (Hw' : rows_well_formed (Csv.reader text'))
      by (rewrite Hr; now apply well_formed_set_field).
    assert (Hin' : In date (row_dates (Csv.reader text')))
      by (rewrite Hr, row_dates_set_field; exact Hin).
    destruct (update_present text' date a2 v2 Hw' Hin' Ha2) as (i2 & Hi2 & Hl2 & Hu2).
    assert (Hii : i2 <> i).
    { intros ->. apply index_of_nth in Hi, Hi2. congruence. }
    eexists. split; [exact Hu2|].
    intros n r Hn Hd. rewrite reader_writerows, nth_error_map, Hr, nth_error_map, Hn.
    cbn [option_map]. pose proof (well_formed_nth _ _ _ Hw Hn) as Hlen.
    eexists. split; [reflexivity|].
    rewrite set_field_nth.
    + replace (Nat.eqb (S i) (S i2)) with false by (symmetry; apply Nat.eqb_neq; lia).
      rewrite set_field_nth by (assumption || lia). now rewrite Nat.eqb_refl.
    + now rewrite set_field_hd.
    + rewrite set_field_length. lia.
Qed.

Lemma update_field_frame_witness :
  rows_well_formed (Csv.reader sample_log)
  /\ In sample_date (row_dates (Csv.reader sample_log))
  /\ In "Tahajjud" activity_keys
  /\ exists i text',
    index_of "Tahajjud" activity_keys = Some i
    /\ update_activity (Some sample_log) sample_date "Tahajjud" None = Ok tt (Some text')
    /\ Csv.reader text'
       = map (set_field sample_date (S i) (render (written_value "Tahajjud" None)))
             (Csv.reader sample_log)
    /\ (forall n r, nth_error (Csv.reader sample_log) n = Some r ->
          (hd_error r <> Some sample_date -> nth_error (Csv.reader text') n = Some r)
          /\ (hd_error r = Some sample_date ->
              exists r', nth_error (Csv.reader text') n = Some r'
                /\ nth_error r' (S i) = Some (render (written_value "Tahajjud" None))
                /\ forall m, m <> S i -> nth_error r' m = nth_error r m))
    /\ (forall activity2 value2, In activity2 activity_keys -> activity2 <> "Tahajjud" ->
          exists text'',
            update_activity (Some text') sample_date activity2 value2 = Ok tt (Some text'')
            /\ forall n r, nth_error (Csv.reader sample_log) n = Some r ->
                 hd_error r = Some sample_date ->
                 exists r'', nth_error (Csv.reader text'') n = Some r''
                   /\ nth_error r'' (S i) = Some (render (written_value "Tahajjud" None))).
Proof.
  assert (H1 : rows_well_formed (Csv.reader sample_log))
    by (vm_compute; repeat constructor).
  assert (H2 : In sample_date (row_dates (Csv.reader sample_log)))
    by (vm_compute; right; left; reflexivity).
  assert (H3 : In "Tahajjud" activity_keys) by (vm_compute; left; reflexivity).
  split; [exact H1|]. split; [exact H2|]. split; [exact H3|].
  exact (update_field_frame sample_log sample_date "Tahajjud" None H1 H2 H3).
Defined.





Lemma run_ops_well_formed ops t :
  Forall op_valid ops -> rows_well_formed (Csv.reader t) -> Csv.reader t <> [] ->
  exists t', run_ops ops (Some t) = Some (Some t')
    /\ rows_well_formed (Csv.reader t') /\ Csv.reader t' <> [].
Proof.
  intros Hv. revert t.
  induction Hv as [|o os Ho Hos IH]; intros t Hw Hne; [exists t; auto|].
  destruct o as [d|d a v]; cbn [run_ops run_op].
  - destruct (in_dec string_dec d (row_dates (Csv.reader t))) as [Hin|Hout].
    + rewrite ensure_found by (now apply well_formed_nonempty || exact Hin).
      now apply IH.
    + rewrite ensure_absent by (now apply well_formed_nonempty || exact Hout).
      apply IH; rewrite reader_writerows.
      * apply Forall_app. split; [exact Hw | constructor; [apply zero_row_length | constructor]].
      * destruct (Csv.reader t); discriminate.
  - destruct (update_well_formed t d a v Hw Ho)
      as (i & R & Hi & Hl & HR & ->).
    apply IH; rewrite reader_writerows.
    + apply well_formed_set_field.
      destruct HR as [[-> _]|[-> _]]; [exact Hw|].
      apply Forall_app. split; [exact Hw | constructor; [apply zero_row_length | constructor]].
    + destruct HR as [[-> _]|[-> _]]; destruct (Csv.reader t); try contradiction; discriminate.
Qed.

(** C7: starting from the file created by [initialize_csv], any run of
    [check_or_initialize_date] and [update_activity] calls with activity names
    of the schema succeeds and leaves a file in which every row, the header
    included, has one field per activity plus the date, so that the header
    and every data row have the same number of fields. *)
Theorem field_count_invariant (ops : list op) :
  Forall op_valid ops ->
  exists text h rest,
    run_ops ops (initialize_csv None) = Some (Some text)
    /\ Csv.reader text = h :: rest
    /\ length h = S (length activities)
    /\ Forall (fun r => length r = S (length activities)) rest
    /\ Forall (fun r => length r = length h) rest.
Proof.
  intros Hv. destruct (run_ops_well_formed ops (Csv.writerows [header_row]) Hv)
    as (t & Ht & Hw & Hne).
  - rewrite reader_writerows. constructor; [exact header_well_formed | constructor].
  - now rewrite reader_writerows.
  - destruct (Csv.reader t) as [|h rest] eqn:E; [contradiction|].
    inversion Hw as [|h' rest' Hh Hrest]; subst.
    exists t, h, rest. split; [exact Ht|]. split; [exact E|].
    split; [exact Hh|]. split; [exact Hrest|].
    eapply Forall_impl; [|exact Hrest]. intros r Hr. congruence.
Qed.

Lemma field_count_invariant_witness :
  Forall op_valid [EnsureRow sample_date; UpdateField sample_date "Tahajjud" None;
                   UpdateField "02-01-2025" "Revision" (Some "p. 3")]
  /\ exists text h rest,
    run_ops [EnsureRow sample_date; UpdateField sample_date "Tahajjud" None;
             UpdateField "02-01-2025" "Revision" (Some "p. 3")] (initialize_csv None)
      = Some (Some text)
    /\ Csv.reader text = h :: rest
    /\ length h = S (length activities)
    /\ Forall (fun r => length r = S (length activities)) rest
    /\ Forall (fun r => length r = length h) rest.
Proof.
  assert (H : Forall op_valid [EnsureRow sample_date; UpdateField sample_date "Tahajjud" None;
                               UpdateField "02-01-2025" "Revision" (Some "p. 3")])
    by (repeat constructor; vm_compute; intuition).
  split; [exact H|]. exact (field_count_invariant _ H).
Defined.

End Claims.

(** * Facts about the interactive layer *)
Module InteractiveFacts.
Import CsvFacts LogFacts.
Local Open Scope list_scope.

(** An action that leaves the log file alone and only consumes input. *)
Definition reads_only {A} (m : io A) : Prop :=
  forall w o w', m w = (o, w') -> file w' = file w /\ exists pre, input w = pre ++ input w'.

(** An action that only consumes input. *)
Definition consumes {A} (m : io A) : Prop :=
  forall w o w', m w = (o, w') -> exists pre, input w = pre ++ input w'.

Lemma reads_only_ret {A} (a : A) : reads_only (ret a).
Proof. intros w o w' H. inversion H; subst. split; [reflexivity | now exists []]. Qed.

Lemma reads_only_stop {A} (h : halt) : reads_only (@stop A h).
Proof. intros w o w' H. inversion H; subst. split; [reflexivity | now exists []]. Qed.

Lemma reads_only_get_input : reads_only get_input.
Proof.
  intros [f i out] o w' H. unfold get_input in H. simpl in H.
  destruct i as [|l ls]; inversion H; subst; simpl; split; try reflexivity.
  - now exists [].
  - now exists [l].
Qed.

Lemma reads_only_press_enter : reads_only press_enter.
Proof.
  intros [f i out] o w' H. unfold press_enter in H. simpl in H.
  destruct i as [|l ls]; inversion H; subst; simpl; split; try reflexivity.
  - now exists [].
  - now exists [l].
Qed.

Lemma reads_only_emit e : reads_only (emit e).
Proof. intros w o w' H. inversion H; subst. split; [reflexivity | now exists []]. Qed.

Lemma reads_only_show_progress d : reads_only (show_progress d).
Proof.
  intros w o w' H. unfold show_progress in H.
  destruct (display_progress (file w) d); inversion H; subst;
    (split; [reflexivity | now exists []]).
Qed.

Lemma reads_only_bind {A B} (m : io A) (k : A -> io B) :
  reads_only m -> (forall a, reads_only (k a)) -> reads_only (bind m k).
Proof.
  intros Hm Hk w o w' H. unfold bind in H. destruct (m w) as [[a|h] w1] eqn:E.
  - destruct (Hm _ _ _ E) as [F1 [p1 H1]]. destruct (Hk a _ _ _ H) as [F2 [p2 H2]].
    split; [congruence|]. exists (p1 ++ p2). now rewrite H1, H2, app_assoc.
  - inversion H; subst. exact (Hm _ _ _ E).
Qed.

Lemma consumes_reads_only {A} (m : io A) : reads_only m -> consumes m.
Proof. intros H w o w' E. exact (proj2 (H _ _ _ E)). Qed.

Lemma consumes_run_update d a v : consumes (run_update d a v).
Proof.
  intros w o w' H. unfold run_update in H.
  destruct (update_activity (file w) d a v); inversion H; subst; now exists [].
Qed.

Lemma consumes_bind {A B} (m : io A) (k : A -> io B) :
  consumes m -> (forall a, consumes (k a)) -> consumes (bind m k).
Proof.
  intros Hm Hk w o w' H. unfold bind in H. destruct (m w) as [[a|h] w1] eqn:E.
  - destruct (Hm _ _ _ E) as [p1 H1]. destruct (Hk a _ _ _ H) as [p2 H2].
    exists (p1 ++ p2). now rewrite H1, H2, app_assoc.
  - inversion H; subst. exact (Hm _ _ _ E).
Qed.

Ltac io_tac lem_bind base :=
  repeat first
    [ apply lem_bind; [| intros ?]
    | base
    | progress cbv zeta
    | match goal with
      | |- context [if ?b then _ else _] => destruct b
      | |- context [match ?x with Some _ => _ | None => _ end] => destruct x
      end ].

Ltac reads_only_base :=
  first [ apply reads_only_ret | apply reads_only_stop | apply reads_only_get_input
        | apply reads_only_press_enter | apply reads_only_emit | apply reads_only_show_progress ].

Ltac consumes_base :=
  first [ apply consumes_run_update | apply consumes_reads_only; reads_only_base ].

Lemma reads_only_display_command today b : reads_only (display_command today b).
Proof. unfold display_command. io_tac @reads_only_bind reads_only_base. Qed.

Lemma consumes_log_activity d a : consumes (log_activity d a).
Proof. unfold log_activity. io_tac @consumes_bind consumes_base. Qed.

Lemma consumes_input_progress today d : consumes (input_progress today d).
Proof.
  unfold input_progress. io_tac @consumes_bind consumes_base.
  all: apply consumes_log_activity.
Qed.

Lemma consumes_display_command today b : consumes (display_command today b).
Proof. apply consumes_reads_only, reads_only_display_command. Qed.

Lemma consumes_main_round today : consumes (main_round today).
Proof.
  unfold main_round.
  io_tac @consumes_bind
    ltac:(first [ consumes_base | apply consumes_input_progress
                | apply consumes_display_command ]).
Qed.

Ltac round_tac :=
  first [ consumes_base | apply consumes_input_progress | apply consumes_display_command ].

Lemma get_input_done w c w1 :
  get_input w = (Done c, w1) ->
  input w = c :: input w1 /\ file w1 = file w /\ output w1 = output w.
Proof.
  destruct w as [f [|l ls] out]; unfold get_input; simpl; intros H; inversion H; subst;
    simpl; auto.
Qed.

Lemma bind_get_input_shrinks {B} (k : string -> io B) w b w' :
  (forall c, consumes (k c)) -> bind get_input k w = (Done b, w') ->
  length (input w') < length (input w).
Proof.
  intros Hk H. unfold bind in H.
  destruct (get_input w) as [[c|h] w1] eqn:E; [|discriminate].
  destruct (get_input_done _ _ _ E) as [Ei _]. destruct (Hk c _ _ _ H) as [pre Hp].
  rewrite Ei, Hp. simpl. rewrite length_app. lia.
Qed.

Lemma main_round_shrinks today w b w' :
  main_round today w = (Done b, w') -> length (input w') < length (input w).
Proof.
  intros H. unfold main_round in H. eapply bind_get_input_shrinks; [|exact H].
  intros c. cbv beta. io_tac @consumes_bind round_tac.
Qed.

(** The fuel of [main_loop] is never exhausted: any fuel above the number of
    lines left gives the same run. *)
Lemma main_loop_fuel today n m w :
  length (input w) < n -> length (input w) < m -> main_loop today n w = main_loop today m w.
Proof.
  revert m w. induction n as [|n IH]; intros m w Hn Hm; [lia|].
  destruct m as [|m]; [lia|]. cbn [main_loop]. unfold bind.
  destruct (main_round today w) as [[b|h] w'] eqn:E; [|reflexivity].
  destruct b; [|reflexivity]. apply main_round_shrinks in E. apply IH; lia.
Qed.

Definition view_line (l : string) : Prop := l <> "1" /\ l <> "3".

Lemma main_round_view_only today w o w' :
  Forall view_line (input w) -> main_round today w = (o, w') ->
  file w' = file w /\ exists pre, input w = pre ++ input w'.
Proof.
  intros HF H. unfold main_round, bind at 1 in H.
  destruct (get_input w) as [[c|h] w1] eqn:E.
  - destruct (get_input_done _ _ _ E) as (Ei & Ef & _).
    rewrite Ei in HF. inversion HF as [|c' ls [H1 H3] HF']; subst.
    cbv beta in H. rewrite (proj2 (String.eqb_neq c "1") H1) in H.
    rewrite (proj2 (String.eqb_neq c "3") H3) in H.
    lazymatch type of H with
    | ?m _ = _ =>
        assert (R : reads_only m)
          by (io_tac @reads_only_bind
                ltac:(first [reads_only_base | apply reads_only_display_command]))
    end.
    destruct (R _ _ _ H) as [Hf [pre Hp]]. split; [congruence|].
    exists (c :: pre). now rewrite Ei, Hp.
  - inversion H; subst. exact (reads_only_get_input _ _ _ E).
Qed.

Lemma main_loop_view_only today n w :
  Forall view_line (input w) -> file (snd (main_loop today n w)) = file w.
Proof.
  revert w. induction n as [|n IH]; intros w HF; cbn [main_loop]; [reflexivity|].
  unfold bind at 1.
  destruct (main_round today w) as [[b|h] w'] eqn:E;
    destruct (main_round_view_only today w _ _ HF E) as [Hf [pre Hp]].
  - destruct b; [|exact Hf]. rewrite IH; [exact Hf|].
    rewrite Hp in HF. apply Forall_app in HF. tauto.
  - exact Hf.
Qed.

Lemma list_ascii_of_string_append (s t : string) :
  list_ascii_of_string (String.append s t) = list_ascii_of_string s ++ list_ascii_of_string t.
Proof. induction s as [|c s IH]; simpl; [reflexivity | now rewrite IH]. Qed.

Lemma py_int_acc_zeros k s :
  py_int_acc (String.append (string_of_list_ascii (repeat "0"%char k)) s) 0 = py_int_acc s 0.
Proof. induction k as [|k IH]; [reflexivity|]. exact IH. Qed.

Lemma py_isdigit_zeros k s :
  s <> EmptyString ->
  py_isdigit (String.append (string_of_list_ascii (repeat "0"%char k)) s) = py_isdigit s.
Proof.
  intros Hs. destruct s as [|c s]; [congruence|].
  assert (Hz : forallb is_digit (repeat "0"%char k) = true)
    by (induction k as [|k IH]; [reflexivity | exact IH]).
  destruct k as [|k]; [reflexivity|].
  unfold py_isdigit. cbn [string_of_list_ascii repeat String.append].
  change (forallb is_digit (list_ascii_of_string
    (String "0" (String.append (string_of_list_ascii (repeat "0"%char k)) (String c s)))))
    with (forallb is_digit (list_ascii_of_string
    (String.append (string_of_list_ascii (repeat "0"%char (S k))) (String c s)))).
  rewrite list_ascii_of_string_append, forallb_app, list_ascii_of_string_of_list_ascii, Hz.
  reflexivity.
Qed.

(** [str(n)] for the numbers of the activity menu. *)
Lemma menu_numbers n :
  1 <= n <= length activities ->
  render (CInt n) <> EmptyString /\ py_isdigit (render (CInt n)) = true
  /\ py_int (render (CInt n)) = Some n.
Proof.
  intros Hn. change (length activities) with 24 in Hn.
  do 25 (destruct n as [|n]; [first [lia | vm_compute; repeat split; discriminate] |]).
  lia.
Qed.

Lemma py_int_acc_not_decimal s acc :
  existsb (fun c => negb (is_decimal c)) (list_ascii_of_string s) = true ->
  py_int_acc s acc = None.
Proof.
  revert acc. induction s as [|c s IH]; intros acc H; [discriminate|].
  simpl in H |- *. destruct (is_decimal c); simpl in H; [now apply IH | reflexivity].
Qed.

Lemma py_int_acc_decimal s acc n :
  py_int_acc s acc = Some n -> forallb is_decimal (list_ascii_of_string s) = true.
Proof.
  revert acc. induction s as [|c s IH]; intros acc H; [reflexivity|].
  simpl in H |- *. destruct (is_decimal c); [exact (IH _ H) | discriminate].
Qed.

Lemma digit_props c :
  is_digit c = true ->
  is_space c = false /\ Ascii.eqb c Csv.COMMA = false /\ Ascii.eqb c Csv.DQ = false
  /\ Ascii.eqb c Csv.CR = false /\ Ascii.eqb c Csv.LF = false /\ c <> "D"%char.
Proof.
  destruct c as [b0 b1 b2 b3 b4 b5 b6 b7].
  destruct b0, b1, b2, b3, b4, b5, b6, b7; vm_compute; intros H;
    (discriminate || (repeat split; discriminate)).
Qed.

Definition date_chars (cs : list ascii) : string :=
  match cs with
  | [d1; d2; m1; m2; y1; y2; y3; y4] =>
      string_of_list_ascii [d1; d2; "-"; m1; m2; "-"; y1; y2; y3; y4]%char
  | _ => EmptyString
  end.

Lemma date_shape (s : string) :
  display_date_invalid s = false <->
  exists cs, length cs = 8 /\ Forall (fun c => is_digit c = true) cs /\ s = date_chars cs.
Proof.
  split.
  - intros H. unfold display_date_invalid in H.
    repeat rewrite orb_false_iff in H.
    destruct H as (((((Hl & H2) & H5) & Hd) & Hm) & Hy).
    apply negb_false_iff, Nat.eqb_eq in Hl.
    do 10 (destruct s as [|?c s]; [discriminate|]).
    destruct s; [|discriminate].
    unfold char_ne in H2, H5. cbn in H2, H5.
    apply negb_false_iff, Ascii.eqb_eq in H2, H5. subst.
    cbn in Hd, Hm, Hy. apply negb_false_iff in Hd, Hm, Hy.
    repeat rewrite andb_true_iff in Hd. repeat rewrite andb_true_iff in Hm.
    repeat rewrite andb_true_iff in Hy.
    exists [c; c0; c2; c3; c5; c6; c7; c8]. split; [reflexivity|].
    split; [|reflexivity].
    repeat (apply Forall_cons; [tauto|]). apply Forall_nil.
  - intros (cs & Hl & Hf & ->).
    do 8 (destruct cs as [|?c cs]; [discriminate|]). destruct cs; [|discriminate].
    repeat match goal with H : Forall _ (_ :: _) |- _ => inversion H; subst; clear H end.
    unfold display_date_invalid, char_ne, slice, py_isdigit. cbn.
    repeat match goal with H : is_digit _ = true |- _ => rewrite H; clear H end.
    reflexivity.
Qed.

Lemma valid_date_props (s : string) :
  display_date_invalid s = false ->
  strip s = s /\ s <> "Date" /\ s <> EmptyString /\ Csv.needs_quote s = false.
Proof.
  intros H. apply date_shape in H. destruct H as (cs & Hl & Hf & ->).
  do 8 (destruct cs as [|?c cs]; [discriminate|]). destruct cs; [|discriminate].
  repeat match goal with H : Forall _ (_ :: _) |- _ => inversion H; subst; clear H end.
  repeat match goal with H : is_digit _ = true |- _ =>
    destruct (digit_props _ H) as (? & ? & ? & ? & ? & ?); clear H end.
  split; [|split; [|split]].
  - unfold strip, date_chars. rewrite list_ascii_of_string_of_list_ascii.
    cbn [lstrip_chars]. repeat match goal with H : is_space _ = false |- _ => rewrite H end.
    cbn [rev app]. cbn [lstrip_chars].
    repeat match goal with H : is_space _ = false |- _ => rewrite H end.
    reflexivity.
  - cbn. intros E. inversion E.
  - discriminate.
  - unfold date_chars. cbn [string_of_list_ascii Csv.needs_quote].
    repeat match goal with H : Ascii.eqb _ _ = false |- _ => rewrite H end.
    reflexivity.
Qed.

(** [update_activity] then [display_progress] on a file with the header of
    [initialize_csv]. *)
Lemma update_then_display text rows date activity value :
  Csv.reader text = header_row :: rows -> rows_well_formed rows -> date <> "Date" ->
  In activity activity_keys ->
  exists text' rows' r j,
    update_activity (Some text) date activity value = Ok tt (Some text')
    /\ Csv.reader text' = header_row :: rows' /\ rows_well_formed rows'
    /\ display_progress (Some text') date = Progress r
    /\ hd_error r = Some date
    /\ index_of activity header_row = Some j
    /\ nth_error r j = Some (render (written_value activity value)).
Proof.
  intros Hr Hw Hdate Ha.
  assert (Hw0 : rows_well_formed (Csv.reader text))
    by (rewrite Hr; constructor; [exact header_well_formed | exact Hw]).
  destruct (update_well_formed text date activity value Hw0 Ha)
    as (i & R & Hi & Hl & HR & Hu).
  set (w := render (written_value activity value)) in *.
  assert (Hrows : exists rows', R = header_row :: rows' /\ rows_well_formed rows'
                                /\ In date (row_dates rows')).
  { rewrite Hr in HR. destruct HR as [[-> Hin]|[-> Hout]].
    - exists rows. split; [reflexivity|]. split; [exact Hw|].
      change (row_dates (header_row :: rows)) with ("Date" :: row_dates rows) in Hin.
      destruct Hin as [Hin|Hin]; [congruence | exact Hin].
    - exists (rows ++ [zero_row date]). split; [reflexivity|]. split.
      + apply Forall_app. split; [exact Hw | constructor; [apply zero_row_length | constructor]].
      + rewrite row_dates_app. apply in_or_app. right. left. reflexivity. }
  destruct Hrows as (rows' & -> & Hw' & Hin').
  assert (Hh0 : set_field date (S i) w header_row = header_row)
    by (apply set_field_other_date; simpl; congruence).
  assert (Hrd : Csv.reader (Csv.writerows (map (set_field date (S i) w) (header_row :: rows')))
                = header_row :: map (set_field date (S i) w) rows')
    by (rewrite reader_writerows; cbn [map]; now rewrite Hh0).
  destruct (progress_found date (map (set_field date (S i) w) rows'))
    as (r & Hr' & Hh & Hp).
  { now apply well_formed_set_field. }
  { now rewrite row_dates_set_field. }
  apply in_map_iff in Hr'. destruct Hr' as (r0 & <- & Hr0).
  assert (Hlen : length r0 = S (length activities))
    by (unfold rows_well_formed in Hw'; rewrite Forall_forall in Hw'; now apply Hw').
  rewrite set_field_hd in Hh.
  exists (Csv.writerows (map (set_field date (S i) w) (header_row :: rows'))),
    (map (set_field date (S i) w) rows'), (set_field date (S i) w r0), (S i).
  split; [exact Hu|]. split; [exact Hrd|]. split; [now apply well_formed_set_field|].
  split; [unfold display_progress; rewrite Hrd; exact Hp|].
  split; [now rewrite set_field_hd|].
  split; [now apply index_of_header|].
  rewrite set_field_nth by (assumption || lia). now rewrite Nat.eqb_refl.
Qed.

(** Stepping through a session. *)
Lemma bind_done {A B} (m : io A) (k : A -> io B) w a w' :
  m w = (Done a, w') -> bind m k w = k a w'.
Proof. intros H. unfold bind. rewrite H. reflexivity. Qed.

Lemma bind_halted {A B} (m : io A) (k : A -> io B) w h w' :
  m w = (Halted h, w') -> bind m k w = (Halted h, w').
Proof. intros H. unfold bind. rewrite H. reflexivity. Qed.

Lemma bind_get_input_cons {B} (k : string -> io B) f l ls out :
  bind get_input k (mkWorld f (l :: ls) out) = k l (mkWorld f ls out).
Proof. reflexivity. Qed.

Lemma bind_press_enter_cons {B} (k : unit -> io B) f l ls out :
  bind press_enter k (mkWorld f (l :: ls) out) = k tt (mkWorld f ls out).
Proof. reflexivity. Qed.

Lemma emit_world e f i out :
  emit e (mkWorld f i out) = (Done tt, mkWorld f i (out ++ [e])).
Proof. reflexivity. Qed.

Lemma show_progress_ok d p f i out :
  display_progress f d = p -> (forall e, p <> Raised e) ->
  show_progress d (mkWorld f i out) = (Done tt, mkWorld f i (out ++ [Shown p])).
Proof.
  intros Hp Hnr. unfold show_progress. cbn [file input output]. rewrite Hp.
  destruct p; try reflexivity. exfalso. eapply Hnr. reflexivity.
Qed.

Lemma main_loop_continue today n w w' :
  main_round today w = (Done true, w') -> main_loop today (S n) w = main_loop today n w'.
Proof. intros H. cbn [main_loop]. unfold bind at 1. rewrite H. reflexivity. Qed.

Lemma main_loop_exit today n w w' :
  main_round today w = (Done false, w') -> main_loop today (S n) w = (Done tt, w').
Proof. intros H. cbn [main_loop]. unfold bind at 1. rewrite H. reflexivity. Qed.

Lemma main_loop_halt today n w h w' :
  main_round today w = (Halted h, w') -> main_loop today (S n) w = (Halted h, w').
Proof. intros H. cbn [main_loop]. unfold bind at 1. rewrite H. reflexivity. Qed.

Lemma round_exit today q f rest out :
  In q ["5"; "x"; "q"] ->
  main_round today (mkWorld f (q :: rest) out) = (Done false, mkWorld f rest (out ++ [Exiting])).
Proof. intros [<-|[<-|[<-|[]]]]; reflexivity. Qed.

Lemma input_progress_log today date c n activity f rest out :
  py_isdigit c = true -> py_int c = Some n -> 1 <= n <= length activities ->
  nth_error activity_keys (n - 1) = Some activity ->
  input_progress today date (mkWorld f (c :: rest) out)
  = log_activity (input_date today date) activity (mkWorld f rest out).
Proof.
  intros Hd Hi Hn Ha. unfold input_progress. cbv zeta. rewrite bind_get_input_cons.
  cbv beta. rewrite Hd, Hi.
  replace (Nat.leb 1 n && Nat.ltb n (S (length activities)))%bool with true
    by (symmetry; apply andb_true_iff; split; [apply Nat.leb_le | apply Nat.ltb_lt]; lia).
  cbn [negb]. rewrite Ha. reflexivity.
Qed.

Lemma log_activity_ok date activity value value_lines f f' rest out :
  (if free_text activity then exists v, value_lines = [v] /\ value = Some v
   else value_lines = [] /\ value = None) ->
  update_activity f date activity value = Ok tt f' ->
  log_activity date activity (mkWorld f (value_lines ++ rest) out)
  = (Done tt, mkWorld f' rest (out ++ [Logged activity date])).
Proof.
  intros Hv Hu. unfold log_activity. destruct (free_text activity).
  - destruct Hv as (v & -> & ->). cbn [app]. unfold bind, get_input, run_update.
    cbn [file input output]. rewrite Hu. reflexivity.
  - destruct Hv as [-> ->]. cbn [app]. unfold bind, run_update.
    cbn [file input output]. rewrite Hu. reflexivity.
Qed.

Lemma round_log today dl c n d activity value value_lines p1 f f' rest out :
  strip dl = d -> d <> EmptyString ->
  main_date_bad_shape d = false -> main_date_bad_digits d = false ->
  py_isdigit c = true -> py_int c = Some n -> 1 <= n <= length activities ->
  nth_error activity_keys (n - 1) = Some activity ->
  (if free_text activity then exists v, value_lines = [v] /\ value = Some v
   else value_lines = [] /\ value = None) ->
  update_activity f d activity value = Ok tt f' ->
  main_round today (mkWorld f ("3" :: dl :: c :: value_lines ++ p1 :: rest) out)
  = (Done true, mkWorld f' rest (out ++ [Logged activity d])).
Proof.
  intros Hs Hne Hb1 Hb2 Hdig Hint Hn Ha Hv Hu.
  unfold main_round. rewrite bind_get_input_cons. cbv beta.
  cbn [String.eqb Ascii.eqb Bool.eqb].
  rewrite bind_get_input_cons. cbv beta zeta. rewrite Hs.
  apply String.eqb_neq in Hne. rewrite Hne, Hb1, Hb2.
  erewrite bind_done.
  2:{ rewrite (input_progress_log _ _ _ _ _ _ _ _ Hdig Hint Hn Ha). cbn [input_date].
      rewrite Hne. apply (log_activity_ok _ _ _ _ _ _ _ _ Hv Hu). }
  rewrite bind_press_enter_cons. reflexivity.
Qed.

Lemma round_view today dl d p p2 f rest out :
  strip dl = d -> display_date_invalid d = false ->
  display_progress f d = p -> (forall e, p <> Raised e) ->
  main_round today (mkWorld f ("4" :: dl :: p2 :: rest) out)
  = (Done true, mkWorld f rest (out ++ [Shown p])).
Proof.
  intros Hs Hd Hp Hnr.
  unfold main_round. rewrite bind_get_input_cons. cbv beta.
  cbn [String.eqb Ascii.eqb Bool.eqb]. unfold display_command.
  erewrite bind_done.
  2:{ rewrite bind_get_input_cons. cbv beta zeta. rewrite Hs, Hd.
      apply (show_progress_ok _ _ _ _ _ Hp Hnr). }
  rewrite bind_press_enter_cons. reflexivity.
Qed.

(** A round that ends the loop read one of the exit choices and printed
    its goodbye, nothing else. *)
Definition never_false (m : io bool) : Prop := forall w w', m w <> (Done false, w').

Lemma never_false_bind {A} (m : io A) (k : A -> io bool) :
  (forall a, never_false (k a)) -> never_false (bind m k).
Proof.
  intros Hk w w' H. unfold bind in H.
  destruct (m w) as [[a|h] w1]; [exact (Hk a _ _ H)|discriminate H].
Qed.

Lemma never_false_ret_true : never_false (ret true).
Proof. intros w w' H. discriminate H. Qed.

Lemma main_round_false today w w' :
  main_round today w = (Done false, w') ->
  exists q, In q ["5"; "x"; "q"] /\ input w = q :: input w'
            /\ file w' = file w /\ output w' = output w ++ [Exiting].
Proof.
  intros H. unfold main_round in H. unfold bind at 1 in H.
  destruct (get_input w) as [[c|h] w1] eqn:Eg; [|discriminate H].
  apply get_input_done in Eg as (Ei & Ef & Eo).
  assert (Hnf : forall m : io bool, never_false m -> m w1 <> (Done false, w'))
    by (intros m Hm; apply Hm).
  destruct (String.eqb c "1");
    [exfalso; revert H; apply Hnf; repeat (apply never_false_bind; intros ?);
     apply never_false_ret_true|].
  destruct (String.eqb c "2");
    [exfalso; revert H; apply Hnf; repeat (apply never_false_bind; intros ?);
     apply never_false_ret_true|].
  destruct (String.eqb c "3") eqn:E3.
  { exfalso; revert H; apply Hnf. apply never_false_bind. intros line. cbv zeta.
    destruct (main_date_bad_shape _); [|destruct (main_date_bad_digits _)];
      repeat (apply never_false_bind; intros ?); apply never_false_ret_true. }
  destruct (String.eqb c "4");
    [exfalso; revert H; apply Hnf; repeat (apply never_false_bind; intros ?);
     apply never_false_ret_true|].
  destruct (existsb (String.eqb c) ["5"; "x"; "q"]) eqn:Ex.
  - unfold bind, emit, ret in H. inversion H; subst. cbn [file input output].
    apply existsb_exists in Ex as (q & Hq & Eq). apply String.eqb_eq in Eq. subst q.
    exists c. rewrite Ei, Ef, Eo. auto.
  - exfalso; revert H; apply Hnf; repeat (apply never_false_bind; intros ?);
      apply never_false_ret_true.
Qed.

Lemma main_loop_done today n w w' :
  main_loop today n w = (Done tt, w') -> exists out', output w' = out' ++ [Exiting].
Proof.
  revert w. induction n as [|n IH]; intros w H; [discriminate H|].
  cbn [main_loop] in H. unfold bind in H.
  destruct (main_round today w) as [[b|h] w1] eqn:E; [|discriminate H].
  destruct b; [exact (IH w1 H)|].
  unfold ret in H. inversion H; subst.
  destruct (main_round_false today w w' E) as (q & _ & _ & _ & Eo).
  exists (output w). exact Eo.
Qed.

(** Every activity's position in [activities] labels, in the header of the
    earlier script, a column of another activity. *)
Lemma old_columns_shifted a i :
  index_of a activity_keys = Some i ->
  exists b, nth_error old_header_row (S i) = Some b /\ b <> a.
Proof.
  intros H. apply index_of_nth in H.
  assert (Hlt : i < length activity_keys) by (apply nth_error_Some; rewrite H; discriminate).
  change (length activity_keys) with 24 in Hlt.
  do 24 (destruct i as [|i];
    [cbn in H; inversion H; subst; eexists; split; [reflexivity | discriminate]|]).
  lia.
Qed.

End InteractiveFacts.

(** * Further properties of the code *)
Module Extras.
Import CsvFacts LogFacts InteractiveFacts.
Local Open Scope list_scope.

(** [input_progress]: typing the number [n] of the menu, 1 <= n <= 24, with
    any number of leading zeros, selects the [n]-th activity of the schema
    and goes on to log it; nothing but the choice line has been read. *)
Theorem input_progress_number (today : string) (date : option string) (k n : nat)
    (f : fstate) (rest : list string) (out : list event) :
  1 <= n <= length activities ->
  exists activity,
    nth_error activity_keys (n - 1) = Some activity
    /\ input_progress today date
         (mkWorld f (String.append (string_of_list_ascii (repeat "0"%char k))
                       (render (CInt n)) :: rest) out)
       = log_activity (input_date today date) activity (mkWorld f rest out).
Proof.
  intros Hn. destruct (menu_numbers n Hn) as (Hne & Hdig & Hint).
  destruct (nth_error activity_keys (n - 1)) as [a|] eqn:En.
  2: { apply nth_error_None in En. unfold activity_keys in En.
       rewrite length_map in En. lia. }
  exists a. split; [reflexivity|].
  unfold input_progress, bind at 1, get_input. cbn [input file output].
  rewrite py_isdigit_zeros by exact Hne. rewrite Hdig. cbn [negb].
  unfold py_int at 1. rewrite py_int_acc_zeros. fold (py_int (render (CInt n))).
  rewrite Hint.
  replace (Nat.leb 1 n && Nat.ltb n (S (length activities)))%bool with true
    by (symmetry; apply andb_true_iff; split; [apply Nat.leb_le | apply Nat.ltb_lt]; lia).
  cbn [negb]. rewrite En. reflexivity.
Qed.

Lemma input_progress_number_witness :
  1 <= 23 <= length activities
  /\ exists activity,
    nth_error activity_keys (23 - 1) = Some activity
    /\ input_progress "05-05-2025" None
         (mkWorld None (String.append (string_of_list_ascii (repeat "0"%char 1))
                          (render (CInt 23)) :: ["Surah Mulk"]) [])
       = log_activity (input_date "05-05-2025" None) activity (mkWorld None ["Surah Mulk"] []).
Proof.
  assert (H : 1 <= 23 <= length activities) by (change (length activities) with 24; lia).
  split; [exact H|]. exact (input_progress_number "05-05-2025" None 1 23 None ["Surah Mulk"] [] H).
Defined.

(** [input_progress]: a choice that is empty, holds a character that is not
    a digit (a sign, a space, a letter), or is a number outside 1..24 (such
    as 0 or 25) prints "Invalid choice", reads no further line and leaves the
    log file as it was. *)
Theorem input_progress_rejects (today : string) (date : option string) (c : string)
    (f : fstate) (rest : list string) (out : list event) :
  py_isdigit c = false \/ (exists n, py_int c = Some n /\ (n = 0 \/ length activities < n)) ->
  input_progress today date (mkWorld f (c :: rest) out)
  = (Done tt, mkWorld f rest (out ++ [InvalidChoice])).
Proof.
  intros H. unfold input_progress, bind at 1, get_input. cbn [input file output].
  destruct (py_isdigit c) eqn:Ed; [|reflexivity].
  destruct H as [H|(n & Hn & Hr)]; [discriminate|]. cbn [negb]. rewrite Hn.
  replace (Nat.leb 1 n && Nat.ltb n (S (length activities)))%bool with false.
  - reflexivity.
  - symmetry. apply andb_false_iff. destruct Hr as [->|Hr]; [now left|].
    right. apply Nat.ltb_ge. lia.
Qed.

Lemma input_progress_rejects_witness :
  (py_isdigit "25" = false \/ (exists n, py_int "25" = Some n /\ (n = 0 \/ length activities < n)))
  /\ input_progress "05-05-2025" None (mkWorld None ["25"; "1"] [])
     = (Done tt, mkWorld None ["1"] ([] ++ [InvalidChoice])).
Proof.
  assert (H : py_isdigit "25" = false
              \/ (exists n, py_int "25" = Some n /\ (n = 0 \/ length activities < n)))
    by (right; exists 25; split; [reflexivity | right; change (length activities) with 24; lia]).
  split; [exact H|]. exact (input_progress_rejects "05-05-2025" None "25" None ["1"] [] H).
Defined.

(** [input_progress]: a choice made of characters that [isdigit] accepts
    but one of which is not a decimal digit (a superscript such as U+00B2)
    passes the check of line 112, and [int(choice)] then raises
    [ValueError], which escapes; the log file is left as it was. *)
Theorem input_progress_int_error (today : string) (date : option string) (c : string)
    (f : fstate) (rest : list string) (out : list event) :
  py_isdigit c = true ->
  existsb (fun ch => negb (is_decimal ch)) (list_ascii_of_string c) = true ->
  input_progress today date (mkWorld f (c :: rest) out) = (Halted (IntError c), mkWorld f rest out).
Proof.
  intros Hd Hn. unfold input_progress, bind at 1, get_input. cbn [input file output].
  rewrite Hd. cbn [negb]. unfold py_int. rewrite py_int_acc_not_decimal by exact Hn.
  reflexivity.
Qed.

Lemma input_progress_int_error_witness :
  py_isdigit (String "178" EmptyString) = true
  /\ existsb (fun ch => negb (is_decimal ch)) (list_ascii_of_string (String "178" EmptyString)) = true
  /\ input_progress "05-05-2025" None (mkWorld None [String "178" EmptyString] [])
     = (Halted (IntError (String "178" EmptyString)), mkWorld None [] []).
Proof.
  assert (H1 : py_isdigit (String "178" EmptyString) = true) by reflexivity.
  assert (H2 : existsb (fun ch => negb (is_decimal ch))
                 (list_ascii_of_string (String "178" EmptyString)) = true) by reflexivity.
  split; [exact H1|]. split; [exact H2|].
  exact (input_progress_int_error "05-05-2025" None _ None [] [] H1 H2).
Defined.

(** [input_progress]: when the choice selects a free-text activity
    (Memorization or Revision) and the input ends at the prompt for its
    value, [get_input] exits with status 1 before [update_activity] runs: the
    log file is left as it was, without even a row for the date. *)
Theorem input_progress_free_text_eof (today : string) (date : option string) (c : string)
    (n : nat) (activity : string) (f : fstate) (out : list event) :
  py_isdigit c = true -> py_int c = Some n -> 1 <= n <= length activities ->
  nth_error activity_keys (n - 1) = Some activity -> free_text activity = true ->
  input_progress today date (mkWorld f [c] out) = (Halted (SysExit 1), mkWorld f [] out).
Proof.
  intros Hd Hi Hn Ha Hf. unfold input_progress, bind at 1, get_input. cbn [input file output].
  rewrite Hd. cbn [negb]. rewrite Hi.
  replace (Nat.leb 1 n && Nat.ltb n (S (length activities)))%bool with true
    by (symmetry; apply andb_true_iff; split; [apply Nat.leb_le | apply Nat.ltb_lt]; lia).
  cbn [negb]. rewrite Ha. unfold log_activity. rewrite Hf. reflexivity.
Qed.

Lemma input_progress_free_text_eof_witness :
  py_isdigit "24" = true /\ py_int "24" = Some 24 /\ 1 <= 24 <= length activities
  /\ nth_error activity_keys (24 - 1) = Some "Revision" /\ free_text "Revision" = true
  /\ input_progress "05-05-2025" None (mkWorld (Some sample_log) ["24"] [])
     = (Halted (SysExit 1), mkWorld (Some sample_log) [] []).
Proof.
  assert (H1 : py_isdigit "24" = true) by reflexivity.
  assert (H2 : py_int "24" = Some 24) by reflexivity.
  assert (H3 : 1 <= 24 <= length activities) by (change (length activities) with 24; lia).
  assert (H4 : nth_error activity_keys (24 - 1) = Some "Revision") by reflexivity.
  assert (H5 : free_text "Revision" = true) by reflexivity.
  do 5 (split; [assumption|]).
  exact (input_progress_free_text_eof "05-05-2025" None "24" 24 "Revision" (Some sample_log) []
           H1 H2 H3 H4 H5).
Defined.

(** [display_progress(file_name, True)] (lines 129-134 and the [try] block
    after them) reads one line and applies [strip()] to it. When the
    stripped line is two digits, a dash, two digits, a dash and four digits,
    where a digit is any character [isdigit] accepts (the superscripts
    U+00B2, U+00B3 and U+00B9 too), it shows the progress of that stripped
    date, whatever the date of today; otherwise it prints "Invalid date
    format" and returns. Either way it reads that line only. *)
Theorem display_typed_date (today l : string) (f : fstate) (rest : list string)
    (out : list event) :
  (exists cs, length cs = 8 /\ Forall (fun c => is_digit c = true) cs
     /\ strip l = date_chars cs
     /\ display_command today true (mkWorld f (l :: rest) out)
        = show_progress (date_chars cs) (mkWorld f rest out))
  \/ ((forall cs, length cs = 8 -> Forall (fun c => is_digit c = true) cs ->
         strip l <> date_chars cs)
      /\ display_command today true (mkWorld f (l :: rest) out)
         = (Done tt, mkWorld f rest (out ++ [InvalidDate]))).
Proof.
  unfold display_command. rewrite bind_get_input_cons. cbv beta zeta.
  destruct (display_date_invalid (strip l)) eqn:E.
  - right. split; [|reflexivity].
    intros cs Hl Hf Heq.
    assert (E' : display_date_invalid (strip l) = false)
      by (apply date_shape; exists cs; auto).
    congruence.
  - left. apply date_shape in E as E'. destruct E' as (cs & Hl & Hf & Heq).
    exists cs. split; [exact Hl|]. split; [exact Hf|]. split; [exact Heq|].
    rewrite <- Heq. reflexivity.
Qed.

(** The two checks [main] makes on the date of option 3 (lines 208-213)
    accept exactly the dates the check of [display_progress] accepts; such a
    date is unchanged by [strip()], differs from the header field "Date",
    and is written to the log without CSV quoting. *)
Theorem date_checks_agree (s : string) :
  (main_date_bad_shape s || main_date_bad_digits s)%bool = display_date_invalid s
  /\ (display_date_invalid s = false ->
      strip s = s /\ s <> "Date" /\ Csv.needs_quote s = false).
Proof.
  split.
  - unfold main_date_bad_shape, main_date_bad_digits, display_date_invalid.
    now repeat rewrite orb_assoc.
  - intros H. destruct (valid_date_props s H) as (H1 & H2 & _ & H3). auto.
Qed.

(** [main]: in a session that logs an activity for a typed date (option 3)
    and then views that date (option 4) before leaving, the table shown is
    the date's row, holding in the activity's column the default count of
    the activity, or the text typed for a free-text activity. This holds
    when the log file is absent at start or has the header and well-formed
    rows of [initialize_csv]. *)
Theorem main_log_then_view (today dl1 dl2 c p1 p2 q d activity : string) (n : nat)
    (f0 : fstate) (value : option string) (value_lines rest : list string)
    (out : list event) :
  (f0 = None \/ exists text rows, f0 = Some text /\ Csv.reader text = header_row :: rows
                                  /\ rows_well_formed rows) ->
  strip dl1 = d -> strip dl2 = d -> display_date_invalid d = false ->
  py_isdigit c = true -> py_int c = Some n -> 1 <= n <= length activities ->
  nth_error activity_keys (n - 1) = Some activity ->
  (if free_text activity then exists v, value_lines = [v] /\ value = Some v
   else value_lines = [] /\ value = None) ->
  In q ["5"; "x"; "q"] ->
  exists f' r j,
    main today (mkWorld f0 ("3" :: dl1 :: c :: value_lines ++ p1 :: "4" :: dl2 :: p2 :: q :: rest) out)
    = (Done tt, mkWorld f' rest (out ++ [Logged activity d; Shown (Progress r); Exiting]))
    /\ hd_error r = Some d /\ index_of activity header_row = Some j
    /\ nth_error r j = Some (render (written_value activity value)).
Proof.
  intros Hf0 Hs1 Hs2 Hd Hdig Hint Hn Ha Hv Hq.
  destruct (valid_date_props d Hd) as (_ & Hdate & Hne & _).
  assert (Hinit : exists text0 rows0, initialize_csv f0 = Some text0
                  /\ Csv.reader text0 = header_row :: rows0 /\ rows_well_formed rows0).
  { destruct Hf0 as [->|(text & rows & -> & Hr & Hw)].
    - exists fresh_log, []. split; [reflexivity|]. split; [apply reader_writerows | constructor].
    - exists text, rows. auto. }
  destruct Hinit as (text0 & rows0 & Hi0 & Hr0 & Hw0).
  assert (Hin : In activity activity_keys) by (eapply nth_error_In; exact Ha).
  destruct (update_then_display text0 rows0 d activity value Hr0 Hw0 Hdate Hin)
    as (text' & rows' & r & j & Hu & _ & _ & Hp & Hh & Hj & Hr).
  exists (Some text'), r, j. split; [|auto].
  assert (Hm : (main_date_bad_shape d || main_date_bad_digits d)%bool = false)
    by (unfold main_date_bad_shape, main_date_bad_digits; unfold display_date_invalid in Hd;
        now repeat rewrite orb_assoc).
  apply orb_false_iff in Hm. destruct Hm as [Hb1 Hb2].
  unfold main. cbn [input file output length app]. rewrite Hi0.
  rewrite (main_loop_continue _ _ _ _
             (round_log today dl1 c n d activity value value_lines p1 _ _ _ out
                Hs1 Hne Hb1 Hb2 Hdig Hint Hn Ha Hv Hu)).
  rewrite (main_loop_continue _ _ _ _
             (round_view today dl2 d _ p2 _ _ _ Hs2 Hd Hp ltac:(congruence))).
  erewrite main_loop_exit; [|apply round_exit; exact Hq].
  rewrite <- !app_assoc. reflexivity.
Qed.

Lemma main_log_then_view_witness :
  (None = @None string \/ exists text rows, None = Some text
     /\ Csv.reader text = header_row :: rows /\ rows_well_formed rows)
  /\ strip " 05-05-2025" = "05-05-2025" /\ strip "05-05-2025 " = "05-05-2025"
  /\ display_date_invalid "05-05-2025" = false
  /\ py_isdigit "23" = true /\ py_int "23" = Some 23 /\ 1 <= 23 <= length activities
  /\ nth_error activity_keys (23 - 1) = Some "Memorization"
  /\ (if free_text "Memorization" then exists v, ["Juz 1"] = [v] /\ Some "Juz 1" = Some v
      else ["Juz 1"] = [] /\ Some "Juz 1" = None)
  /\ In "x" ["5"; "x"; "q"]
  /\ exists f' r j,
    main "01-01-2025"
      (mkWorld None ("3" :: " 05-05-2025" :: "23" :: ["Juz 1"] ++ EmptyString
                     :: "4" :: "05-05-2025 " :: EmptyString :: "x" :: []) [])
    = (Done tt, mkWorld f' [] ([] ++ [Logged "Memorization" "05-05-2025";
                                       Shown (Progress r); Exiting]))
    /\ hd_error r = Some "05-05-2025" /\ index_of "Memorization" header_row = Some j
    /\ nth_error r j = Some (render (written_value "Memorization" (Some "Juz 1"))).
Proof.
  assert (H0 : None = @None string \/ exists text rows, None = Some text
     /\ Csv.reader text = header_row :: rows /\ rows_well_formed rows) by (left; reflexivity).
  assert (H1 : strip " 05-05-2025" = "05-05-2025") by reflexivity.
  assert (H2 : strip "05-05-2025 " = "05-05-2025") by reflexivity.
  assert (H3 : display_date_invalid "05-05-2025" = false) by reflexivity.
  assert (H4 : py_isdigit "23" = true) by reflexivity.
  assert (H5 : py_int "23" = Some 23) by reflexivity.
  assert (H6 : 1 <= 23 <= length activities) by (change (length activities) with 24; lia).
  assert (H7 : nth_error activity_keys (23 - 1) = Some "Memorization") by reflexivity.
  assert (H8 : if free_text "Memorization" then exists v, ["Juz 1"] = [v] /\ Some "Juz 1" = Some v
               else ["Juz 1"] = [] /\ Some "Juz 1" = None)
    by (exists "Juz 1"; split; reflexivity).
  assert (H9 : In "x" ["5"; "x"; "q"]) by (right; left; reflexivity).
  do 10 (split; [assumption|]).
  exact (main_log_then_view "01-01-2025" " 05-05-2025" "05-05-2025 " "23" EmptyString EmptyString "x"
           "05-05-2025" "Memorization" 23 None (Some "Juz 1") ["Juz 1"] [] []
           H0 H1 H2 H3 H4 H5 H6 H7 H8 H9).
Defined.

(** [main]: the loop ends normally only by [break], after one of the exit
    choices 5, x or q, whose "Exiting the program. Goodbye!" is the last
    thing printed. *)
Theorem main_done_after_exit (today : string) (w w' : world) :
  main today w = (Done tt, w') -> exists out', output w' = out' ++ [Exiting].
Proof. intros H. unfold main in H. exact (main_loop_done _ _ _ _ H). Qed.

Lemma main_done_after_exit_witness :
  main "01-01-2025" (mkWorld None ["2"; "x"; "q"] [])
  = (Done tt, mkWorld (initialize_csv None) [] [Shown NoProgressForDate; Exiting])
  /\ exists out', output (mkWorld (initialize_csv None) [] [Shown NoProgressForDate; Exiting])
                  = out' ++ [Exiting].
Proof.
  assert (H : main "01-01-2025" (mkWorld None ["2"; "x"; "q"] [])
     = (Done tt, mkWorld (initialize_csv None) [] [Shown NoProgressForDate; Exiting]))
    by reflexivity.
  split; [exact H|]. exact (main_done_after_exit _ _ _ H).
Defined.

(** [main]: a session in which no line is 1 or 3 (only viewing, invalid
    choices and exits) leaves the log file as [initialize_csv] made it. *)
Theorem main_view_only (today : string) (f : fstate) (inp : list string) (out : list event) :
  Forall view_line inp ->
  file (snd (main today (mkWorld f inp out))) = initialize_csv f.
Proof.
  intros H. unfold main. apply (main_loop_view_only today _ (mkWorld _ _ _)). exact H.
Qed.

Lemma main_view_only_witness :
  Forall view_line ["2"; "ok"; "4"; "01-01-2025"; "ok"; "q"]
  /\ file (snd (main "01-01-2025" (mkWorld None ["2"; "ok"; "4"; "01-01-2025"; "ok"; "q"] [])))
     = initialize_csv None.
Proof.
  assert (H : Forall view_line ["2"; "ok"; "4"; "01-01-2025"; "ok"; "q"]).
  { unfold view_line.
    repeat (apply Forall_cons; [split; discriminate|]).
    apply Forall_nil. }
  split; [exact H|]. exact (main_view_only _ _ _ _ H).
Defined.

(** [display_progress] on a file whose header is the one [initialize_csv]
    writes and whose rows have one cell per column never raises: it prints
    "No progress recorded for <date>." when no row has the date, and
    otherwise the first row of the date. *)
Theorem display_header_file (text : string) (rows : list (list string)) (d : string) :
  Csv.reader text = header_row :: rows -> rows_well_formed rows ->
  (~ In d (row_dates rows) -> display_progress (Some text) d = NoProgressForDate) /\
  (forall pre r post, rows = pre ++ r :: post -> ~ In d (row_dates pre) ->
     hd_error r = Some d -> display_progress (Some text) d = Progress r).
Proof.
  intros Hr Hw. unfold display_progress. rewrite Hr. split.
  - intros Hn. rewrite <- (app_nil_r rows).
    rewrite progress_skip; [reflexivity | apply well_formed_nonempty; exact Hw | exact Hn].
  - intros pre r post -> Hn Hh. apply Forall_app in Hw as [Hwp Hwr].
    rewrite progress_skip by (auto using well_formed_nonempty).
    inversion Hwr as [|? ? Hlen _]; subst.
    destruct r as [|x r]; [discriminate|]. injection Hh as ->.
    cbn [progress_loop]. rewrite String.eqb_refl. now rewrite print_table_header.
Qed.

Lemma display_header_file_witness :
  Csv.reader sample_log = header_row :: [zero_row sample_date]
  /\ rows_well_formed [zero_row sample_date]
  /\ (~ In sample_date (row_dates [zero_row sample_date]) ->
      display_progress (Some sample_log) sample_date = NoProgressForDate)
  /\ (forall pre r post, [zero_row sample_date] = pre ++ r :: post ->
        ~ In sample_date (row_dates pre) -> hd_error r = Some sample_date ->
        display_progress (Some sample_log) sample_date = Progress r).
Proof.
  assert (H1 : Csv.reader sample_log = header_row :: [zero_row sample_date])
    by (unfold sample_log; apply reader_writerows).
  assert (H2 : rows_well_formed [zero_row sample_date]) by (constructor; [reflexivity | constructor]).
  split; [exact H1|]. split; [exact H2|].
  exact (display_header_file sample_log [zero_row sample_date] sample_date H1 H2).
Defined.

(** An [activity_log.csv] created by the earlier script
    ([src/Deeds/old_nz_script.py], whose [initialize_csv] writes its own
    order of the activities) is updated by [update_activity] by position:
    the value of an activity lands in column [i + 1], where [i] is the
    activity's index in the new [activities], and the header names that
    column after another activity, so [display_progress], which looks the
    activity up by name, reads another column. *)
Theorem old_log_update_shift (text : string) (rows : list (list string))
    (d a : string) (v : option string) :
  Csv.reader text = old_header_row :: rows -> rows_well_formed rows -> d <> "Date" ->
  In a activity_keys ->
  exists i b text' rows',
    index_of a activity_keys = Some i
    /\ update_activity (Some text) d a v = Ok tt (Some text')
    /\ Csv.reader text' = old_header_row :: rows'
    /\ In d (row_dates rows')
    /\ (forall r, In r rows' -> hd_error r = Some d ->
          nth_error r (S i) = Some (render (written_value a v)))
    /\ nth_error old_header_row (S i) = Some b /\ b <> a
    /\ index_of a old_header_row <> Some (S i).
Proof.
  intros Hr Hw Hd Ha.
  assert (Hw0 : rows_well_formed (Csv.reader text))
    by (rewrite Hr; constructor; [reflexivity | exact Hw]).
  destruct (update_well_formed text d a v Hw0 Ha) as (i & R & Hi & Hl & HR & Hu).
  destruct (old_columns_shifted a i Hi) as (b & Hb & Hba).
  set (w := render (written_value a v)) in *.
  assert (Hrows : exists rows0, R = old_header_row :: rows0 /\ rows_well_formed rows0
                                /\ In d (row_dates rows0)).
  { rewrite Hr in HR. destruct HR as [[-> Hin]|[-> Hout]].
    - exists rows. split; [reflexivity|]. split; [exact Hw|].
      change (row_dates (old_header_row :: rows)) with ("Date" :: row_dates rows) in Hin.
      destruct Hin as [Hin|Hin]; [congruence | exact Hin].
    - exists (rows ++ [zero_row d]). split; [reflexivity|]. split.
      + apply Forall_app. split; [exact Hw | constructor; [apply zero_row_length | constructor]].
      + rewrite row_dates_app. apply in_or_app. right. left. reflexivity. }
  destruct Hrows as (rows0 & -> & Hw' & Hin').
  assert (Hh0 : set_field d (S i) w old_header_row = old_header_row)
    by (apply set_field_other_date; simpl; congruence).
  exists i, b, (Csv.writerows (map (set_field d (S i) w) (old_header_row :: rows0))),
    (map (set_field d (S i) w) rows0).
  split; [exact Hi|]. split; [exact Hu|].
  split; [rewrite reader_writerows; cbn [map]; now rewrite Hh0|].
  split; [now rewrite row_dates_set_field|].
  split; [|split; [exact Hb|split; [exact Hba|]]].
  2:{ intros Hj. apply index_of_nth in Hj. congruence. }
  intros r Hr' Hh. apply in_map_iff in Hr'. destruct Hr' as (r0 & <- & Hr0).
  assert (Hlen : length r0 = S (length activities))
    by (unfold rows_well_formed in Hw'; rewrite Forall_forall in Hw'; now apply Hw').
  rewrite set_field_hd in Hh.
  rewrite set_field_nth by (assumption || lia). now rewrite Nat.eqb_refl.
Qed.

Lemma old_log_update_shift_witness :
  Csv.reader (Csv.writerows [old_header_row]) = old_header_row :: []
  /\ rows_well_formed [] /\ sample_date <> "Date" /\ In "Tahajjud" activity_keys
  /\ exists i b text' rows',
    index_of "Tahajjud" activity_keys = Some i
    /\ update_activity (Some (Csv.writerows [old_header_row])) sample_date "Tahajjud" None
      = Ok tt (Some text')
    /\ Csv.reader text' = old_header_row :: rows'
    /\ In sample_date (row_dates rows')
    /\ (forall r, In r rows' -> hd_error r = Some sample_date ->
          nth_error r (S i) = Some (render (written_value "Tahajjud" None)))
    /\ nth_error old_header_row (S i) = Some b /\ b <> "Tahajjud"
    /\ index_of "Tahajjud" old_header_row <> Some (S i).
Proof.
  assert (H1 : Csv.reader (Csv.writerows [old_header_row]) = old_header_row :: [])
    by apply reader_writerows.
  assert (H2 : rows_well_formed []) by constructor.
  assert (H3 : sample_date <> "Date") by discriminate.
  assert (H4 : In "Tahajjud" activity_keys) by (left; reflexivity).
  do 4 (split; [assumption|]).
  exact (old_log_update_shift _ [] sample_date "Tahajjud" None H1 H2 H3 H4).
Defined.

End Extras.
